(** * circuit-breaker-mesh: the request gateway, the status aggregator and the
    conversation dispatcher of the dashboard front end.

    The development embeds three source files:
    - [services/api.js]  (the request gateway [apiFetch] and the [api] object),
    - [App.jsx]          ([refreshAgentData] and [handleSend]),
    - [components/CircuitMesh3D.jsx] (the polling function [fetchStates]).

    JavaScript values are a small inductive type, exceptions and promises
    that never settle are an explicit [outcome], React state is threaded
    through a state-and-trace monad, and the browser's network is an
    environment that tells, for every request, when and how [fetch] settles
    and when and how the body of the response is read. *)

From Stdlib Require Import String Ascii NArith List Bool Lia.
From stdpp Require Import gmap strings list.

Local Open Scope string_scope.
Local Open Scope list_scope.

(* ================================================================== *)
(** * JavaScript values *)
(* ================================================================== *)

Module Js.

(** A JavaScript number, kept as the two observations the program makes of
    one: whether it is truthy (false for 0, -0 and NaN) and the text that
    [String(n)] produces. *)
Record number := Number { number_truthy : bool; number_text : string }.

Definition zero : number := Number false "0".

(** The values that flow through the program: what [JSON.parse] produces,
    plus [undefined] for a missing property. An object keeps its properties
    in source order; a later binding of a key overrides an earlier one. *)
#[warnings="-register-all"]
Inductive value :=
| undefined
| null
| boolean (b : bool)
| num (n : number)
| str (s : string)
| array (elems : list value)
| object (props : list (string * value)).

(** A thrown value: every exception this program can meet is an Error-like
    object ([TypeError], [SyntaxError], [DOMException], [Error]) with a
    [name] and a [message]. *)
Record error := Error { error_name : string; error_message : string }.

(** The result of evaluating an expression or of awaiting a promise: a
    value, an exception, or nothing at all when the awaited promise never
    settles. An [await] on such a promise never resumes: the code that follows
    it does not run, and neither does a [catch] or a [finally] around it. *)
Inductive outcome (A : Type) :=
| Returns (a : A)
| Throws (e : error)
| Pending.
Arguments Returns {A} a.
Arguments Throws {A} e.
Arguments Pending {A}.

Definition obind {A B} (o : outcome A) (k : A -> outcome B) : outcome B :=
  match o with
  | Returns a => k a
  | Throws e => Throws e
  | Pending => Pending
  end.

(** [try { o } catch (e) { handler e }] *)
Definition try_catch {A} (o : outcome A) (handler : error -> outcome A) : outcome A :=
  match o with
  | Returns a => Returns a
  | Throws e => handler e
  | Pending => Pending
  end.

(** ToBoolean *)
Definition truthy (v : value) : bool :=
  match v with
  | undefined | null => false
  | boolean b => b
  | num n => number_truthy n
  | str s => negb (String.eqb s "")
  | array _ | object _ => true
  end.

(** [a || b] on values that are already evaluated. *)
Definition or (a b : value) : value := if truthy a then a else b.

Fixpoint join (sep : string) (parts : list string) : string :=
  match parts with
  | [] => ""
  | [p] => p
  | p :: rest => p +:+ sep +:+ join sep rest
  end.

(** The last binding of [key], as JavaScript resolves a repeated key. *)
Fixpoint find_prop (key : string) (props : list (string * value)) : option value :=
  match props with
  | [] => None
  | (k, v) :: rest =>
      match find_prop key rest with
      | Some later => Some later
      | None => if String.eqb k key then Some v else None
      end
  end.

Definition lookup_prop (key : string) (props : list (string * value)) : value :=
  match find_prop key props with
  | Some v => v
  | None => undefined
  end.

(** ToString, as a template literal, [new Error(v)] and [parseFloat(v)]
    apply it; [None] when the conversion throws.

    An object is converted by calling its [toString]. An object that
    [JSON.parse] built inherits [Object.prototype.toString], which gives a
    fixed text, unless it has a property of that name of its own: that
    property holds a parsed value, never a function, [valueOf] then yields the
    object itself, and the conversion throws. An array joins the texts of its
    elements with commas, [null] and [undefined] elements giving the empty
    string, and throws when the conversion of an element does. *)
Fixpoint to_text (v : value) : option string :=
  match v with
  | undefined => Some "undefined"
  | null => Some "null"
  | boolean true => Some "true"
  | boolean false => Some "false"
  | num n => Some (number_text n)
  | str s => Some s
  | array elems =>
      option_map (join ",")
        ((fix texts (l : list value) : option (list string) :=
            match l with
            | [] => Some []
            | e :: rest =>
                match (match e with
                       | undefined | null => Some ""
                       | _ => to_text e
                       end), texts rest with
                | Some t, Some ts => Some (t :: ts)
                | _, _ => None
                end
            end) elems)
  | object props =>
      match find_prop "toString" props with
      | Some _ => None
      | None => Some "[object Object]"
      end
  end.

(** The error of a conversion that throws. Engines word the message
    differently; this is V8's. *)
Definition not_primitive : error :=
  Error "TypeError" "Cannot convert object to primitive value".

Definition to_string (v : value) : outcome string :=
  match to_text v with
  | Some text => Returns text
  | None => Throws not_primitive
  end.

(** [v.key] for the property names this program reads (none of them is a
    built-in property of strings, numbers, booleans or arrays, so on those the
    access yields [undefined]). Reading a property of [null] or [undefined]
    throws a [TypeError]. *)
Definition get (v : value) (key : string) : outcome value :=
  match v with
  | undefined =>
      Throws (Error "TypeError"
                ("Cannot read properties of undefined (reading '" +:+ key +:+ "')"))
  | null =>
      Throws (Error "TypeError"
                ("Cannot read properties of null (reading '" +:+ key +:+ "')"))
  | object props => Returns (lookup_prop key props)
  | _ => Returns undefined
  end.

(** [s.includes(needle)] *)
Fixpoint includes (s needle : string) : bool :=
  String.prefix needle s ||
  match s with
  | EmptyString => false
  | String _ rest => includes rest needle
  end.

(** ** [String.prototype.trim]

    Strings are UTF-8 byte strings. The characters that [trim] removes are
    ECMAScript's WhiteSpace and LineTerminator code points, listed here by
    their UTF-8 encodings. *)

Definition utf8 (codes : list nat) : list ascii := map ascii_of_nat codes.

Definition whitespace : list (list ascii) :=
  [ utf8 [9]; utf8 [10]; utf8 [11]; utf8 [12]; utf8 [13]; utf8 [32];
    utf8 [194; 160];                                   (* U+00A0 *)
    utf8 [225; 154; 128];                              (* U+1680 *)
    utf8 [226; 128; 128]; utf8 [226; 128; 129]; utf8 [226; 128; 130];
    utf8 [226; 128; 131]; utf8 [226; 128; 132]; utf8 [226; 128; 133];
    utf8 [226; 128; 134]; utf8 [226; 128; 135]; utf8 [226; 128; 136];
    utf8 [226; 128; 137]; utf8 [226; 128; 138];        (* U+2000 .. U+200A *)
    utf8 [226; 128; 168]; utf8 [226; 128; 169];        (* U+2028, U+2029 *)
    utf8 [226; 128; 175];                              (* U+202F *)
    utf8 [226; 129; 159];                              (* U+205F *)
    utf8 [227; 128; 128];                              (* U+3000 *)
    utf8 [239; 187; 191] ].                            (* U+FEFF *)

(** [strip_prefix p l] is what follows [p] in [l], when [l] starts with [p]. *)
Fixpoint strip_prefix (p l : list ascii) : option (list ascii) :=
  match p, l with
  | [], _ => Some l
  | _ :: _, [] => None
  | a :: p', b :: l' => if Ascii.eqb a b then strip_prefix p' l' else None
  end.

Fixpoint strip_any (ps : list (list ascii)) (l : list ascii) : option (list ascii) :=
  match ps with
  | [] => None
  | p :: rest =>
      match strip_prefix p l with
      | Some l' => Some l'
      | None => strip_any rest l
      end
  end.

(** Drops leading members of [ps]; [fuel] bounds the number of rounds. *)
Fixpoint strip_leading (ps : list (list ascii)) (fuel : nat) (l : list ascii) : list ascii :=
  match fuel with
  | O => l
  | S fuel' =>
      match strip_any ps l with
      | Some l' => strip_leading ps fuel' l'
      | None => l
      end
  end.

Definition trim (s : string) : string :=
  let l := list_ascii_of_string s in
  let l := strip_leading whitespace (length l) l in
  let r := rev l in
  let r := strip_leading (map (@rev ascii) whitespace) (length r) r in
  string_of_list_ascii (rev r).

End Js.

(* ================================================================== *)
(** * The request gateway ([services/api.js]) *)
(* ================================================================== *)

Module Api.
Import Js.

Definition TIMEOUT_MS : N := 10000.

(** What [fetch] is called with. [endpoint] is the path that follows the
    configured base URL; [method] is absent when the caller leaves the default
    (GET); [body] is the value handed to [JSON.stringify]. *)
Record options := Options { method : option string; body : option value }.
Record request := Request { endpoint : string; init : options }.

Definition no_options : options := Options None None.

(** A response as the gateway reads it: the status line, and how
    [response.json()] settles once the head of the response has arrived: with
    the parsed body, with an error, or not at all ([Pending]) when the body
    stops arriving, since nothing times the read. [json_latency] is the
    milliseconds the read takes when it does settle. *)
Record response := Response {
  status : N;
  json : outcome value;
  json_latency : N
}.

(** [response.ok] *)
Definition ok (r : response) : bool := (200 <=? status r)%N && (status r <=? 299)%N.

(** How a transport attempt ends when nothing interrupts it: [fetch] fulfils
    with a response as soon as its head has arrived, or rejects. *)
Inductive settlement :=
| fulfilled (r : response)
| rejected (e : error).

(** The network's answer to one request: the milliseconds after which the
    attempt would settle on its own ([None]: never), and how. *)
Record transport := Transport { latency : option N; settles : settlement }.

(** The rejection of an aborted [fetch]. Browsers word the message
    differently; the gateway reads the name only. *)
Definition AbortError : error := Error "AbortError" "signal is aborted without reason".

(** The calls made on the toaster, in order. A call that raises a toast
    returns that toast's id; within the calls of one run the id is written as
    the position of the call that raised the toast, and [toast_dismiss id] is
    [toast.dismiss(id)]. *)
Inductive toast :=
| toast_error (msg : string)
| toast_loading (msg : string)
| toast_success (msg : string)
| toast_dismiss (id : nat).

(** One gateway call, observed from outside: what the returned promise
    settles with ([Pending]: it never does), the calls made on the toaster,
    whether [controller.abort()] ran, and the milliseconds after which the
    promise settled ([None]: never). *)
Record run := Run {
  result : outcome value;
  toasts : list toast;
  aborted : bool;
  elapsed : option N
}.

(** The two envelopes [apiFetch] builds. *)
Definition envelope_success (data : value) : value :=
  object [("success", boolean true); ("data", data)].
Definition envelope_failure (errorMsg : string) : value :=
  object [("success", boolean false); ("error", str errorMsg)].

(** [await fetch(url, {signal})] raced against
    [setTimeout(() => controller.abort(), TIMEOUT_MS)]: the attempt's own
    settlement when it comes before the timer fires, the abort otherwise. The
    triple is the settlement, whether the abort ran, and the time taken. *)
Definition fetch (t : transport) : settlement * bool * N :=
  match latency t with
  | Some ms =>
      if (ms <? TIMEOUT_MS)%N then (settles t, false, ms)
      else (rejected AbortError, true, TIMEOUT_MS)
  | None => (rejected AbortError, true, TIMEOUT_MS)
  end.

(** Lines 28-36: the message taken from the body of a failed response. The
    inner [try] swallows both a body that does not parse and a body on which
    the property access throws; it waits for the body as long as it takes. *)
Definition parsed_errorMessage (r : response) : outcome value :=
  let errorMessage := str "An unexpected error occurred" in
  try_catch
    (obind (json r) (fun errorData =>
     obind (get errorData "detail") (fun detail =>
     obind (get errorData "message") (fun message =>
     Returns (or (or detail message) errorMessage)))))
    (fun e => Returns errorMessage).

(** Lines 39-53: the [switch] on [response.status]. The template literal of
    the default case converts the message to a string, which may throw. *)
Definition status_errorMessage (status : N) (errorMessage : value) : outcome value :=
  match status with
  | 404%N => Returns (str "Resource not found (404)")
  | 429%N => Returns (str "Rate limit exceeded. Please wait a moment.")
  | 500%N | 502%N | 503%N => Returns (str "Server error. Please try again later.")
  | _ => obind (to_string errorMessage) (fun text => Returns (str ("Error: " +:+ text)))
  end.

(** Lines 15-60: the body of the [try], from the settled [fetch] on. *)
Definition try_block (s : settlement) : outcome value :=
  match s with
  | rejected e => Throws e
  | fulfilled response =>
      if negb (ok response) then
        obind (parsed_errorMessage response) (fun errorMessage =>
        obind (status_errorMessage (status response) errorMessage) (fun errorMessage =>
        obind (to_string errorMessage) (fun message =>
        Throws (Error "Error" message))))
      else
        obind (json response) (fun data => Returns (envelope_success data))
  end.

(** Lines 65-74: the message the [catch] settles on. *)
Definition catch_errorMsg (error : error) : string :=
  if String.eqb (error_name error) "AbortError" then
    "Request timed out. Backend is slow or unreachable."
  else if includes (error_message error) "Failed to fetch"
          || includes (error_message error) "NetworkError" then
    "Cannot connect to backend. Is the server running?"
  else error_message error.

(** The time a call takes: the fetch, then the body when a response
    arrived; no time at all when the body is never read to its end. *)
Definition time_taken (s : settlement) (fetched_after : N) : option N :=
  match s with
  | fulfilled response =>
      match json response with
      | Pending => None
      | _ => Some (fetched_after + json_latency response)%N
      end
  | rejected _ => Some fetched_after
  end.

Section Gateway.

(** The network: what happens to each request. *)
Variable network : request -> transport.

Definition apiFetch (endpoint : string) (options : options) : run :=
  let '(s, was_aborted, fetched_after) := fetch (network (Request endpoint options)) in
  let attempt := try_block s in
  Run (try_catch attempt
         (fun error => Returns (envelope_failure (catch_errorMsg error))))
      (match attempt with
       | Returns _ => []
       | Throws error => [toast_error (catch_errorMsg error)]
       | Pending => []
       end)
      was_aborted
      (time_taken s fetched_after).

(** The wrappers of the [api] object. A wrapper shows a loading toast, keeps
    its id, and waits for [apiFetch]; once that has returned it dismisses the
    toast of that id, and congratulates on success. [celebrate] tells the
    wrappers that read [result.success] from [sendChat], which does not. *)
Definition with_toasts (loading : string) (celebrate : bool) (r : run) : run :=
  let toastId := 0 in
  let shown := toast_loading loading :: toasts r in
  match result r with
  | Pending => Run Pending shown (aborted r) (elapsed r)
  | Throws e => Run (Throws e) shown (aborted r) (elapsed r)
  | Returns envelope =>
      let dismissed := shown ++ [toast_dismiss toastId] in
      match (if celebrate then get envelope "success" else Returns (boolean false)) with
      | Returns success =>
          Run (Returns envelope)
              (dismissed ++
               (if truthy success then [toast_success "Response received!"] else []))
              (aborted r) (elapsed r)
      | Throws e => Run (Throws e) dismissed (aborted r) (elapsed r)
      | Pending => Run Pending dismissed (aborted r) (elapsed r)
      end
  end.

Definition sendQuery (query agentId : string) (forceAllAgents : bool) : run :=
  with_toasts "Processing query..." true
    (apiFetch "/api/query"
       (Options (Some "POST")
          (Some (object [("query", str query);
                         ("agent_id", str agentId);
                         ("force_all_agents", boolean forceAllAgents)])))).

Definition sendSimpleChat (query agentId : string) : run :=
  with_toasts "Sending message..." true
    (apiFetch "/api/chat"
       (Options (Some "POST")
          (Some (object [("query", str query); ("agent_id", str agentId)])))).

Definition getAgentStatus (agentId : string) : run :=
  apiFetch ("/api/agents/" +:+ agentId +:+ "/circuit") no_options.

Definition getAgentCost (agentId : string) : run :=
  apiFetch ("/api/agents/" +:+ agentId +:+ "/cost") no_options.

Definition sendChat (agentId : string) (messages : value) : run :=
  with_toasts ("Chatting with " +:+ agentId +:+ "...") false
    (apiFetch ("/api/agents/" +:+ agentId +:+ "/chat")
       (Options (Some "POST") (Some (object [("messages", messages)])))).

End Gateway.

End Api.

(* ================================================================== *)
(** * The dashboard component ([App.jsx]) *)
(* ================================================================== *)

Module App.
Import Js.

(** [parseFloat(v)] converts [v] to a string, which may throw, and reads a
    number off the start of that string. The reading is left uninterpreted:
    the number is represented by the text it is read from. *)
Inductive parsed_float := parsed (text : string).

Definition parseFloat (v : value) : outcome parsed_float :=
  obind (to_string v) (fun text => Returns (parsed text)).

(** One entry of the [agents] object. *)
Record agent := Agent {
  name : string;
  circuitStatus : value;
  budgetLimit : parsed_float;
  cost : value
}.

(** The component's [useState] cells. [messages] holds the timeline's
    object literals; [agents] is the object keyed by agent identifier (an
    identifier is an ordinary property name, as the configured ones are). *)
Record state := State {
  input : string;
  messages : list value;
  agents : gmap string agent;
  loading : bool;
  loadingAgents : bool;
  backendOnline : bool;
  chatMode : string;
  showAdvanced : bool;
  forceAllAgents : bool;
  selectedAgent : string
}.

(** The calls the component makes on the [api] object. *)
Inductive call :=
| getAgentStatus (agentId : string)
| getAgentCost (agentId : string)
| sendSimpleChat (query agentId : string)
| sendQuery (query agentId : string) (forceAllAgents : bool).

(** What the component does, in program order. [issued c] is the moment a
    gateway call is started, [settled cs] the moment an [await] on the calls
    [cs] resumes; the [set...] events are the state setters, each with its
    argument ([setMessages m] appends [m], [setAgents o] overlays [o]). *)
Inductive event :=
| preventDefault
| issued (c : call)
| settled (cs : list call)
| setInput (s : string)
| setMessages (appended : value)
| setAgents (overlay : gmap string agent)
| setLoading (b : bool)
| setLoadingAgents (b : bool)
| setBackendOnline (b : bool)
| console_error (msg : string) (error : error)
| entered_refreshAgentData.

(** A handler runs against the store of state cells, leaves a trace, and
    completes, throws, or stays suspended at an [await] that never resumes. *)
Definition M (A : Type) : Type := state -> list event * state * outcome A.

Definition ret {A} (a : A) : M A := fun st => ([], st, Returns a).

Definition bind {A B} (m : M A) (k : A -> M B) : M B :=
  fun st =>
    match m st with
    | (tr, st', Returns a) =>
        match k a st' with
        | (tr', st'', o) => (tr ++ tr', st'', o)
        end
    | (tr, st', Throws e) => (tr, st', Throws e)
    | (tr, st', Pending) => (tr, st', Pending)
    end.

Notation "x <- m ;; k" := (bind m (fun x => k))
  (at level 20, m at level 99, k at level 200, only parsing).
Notation "' pat <- m ;; k" := (bind m (fun x => match x with pat => k end))
  (at level 20, pat pattern, m at level 99, k at level 200, only parsing).
Notation "m ;; k" := (bind m (fun _ => k))
  (at level 100, k at level 200, right associativity, only parsing).

Definition lift {A} (o : outcome A) : M A := fun st => ([], st, o).

Definition emit (e : event) : M unit := fun st => ([e], st, Returns tt).

Definition update (e : event) (f : state -> state) : M unit :=
  fun st => ([e], f st, Returns tt).

(** [try { body } catch (error) { handler error }] *)
Definition try_catch (A : Type) (body : M A) (handler : error -> M A) : M A :=
  fun st =>
    match body st with
    | (tr, st', Returns a) => (tr, st', Returns a)
    | (tr, st', Throws e) =>
        match handler e st' with
        | (tr', st'', o) => (tr ++ tr', st'', o)
        end
    | (tr, st', Pending) => (tr, st', Pending)
    end.
Arguments try_catch {A} body handler.

(** [try { body } finally { final }] *)
Definition try_finally (A : Type) (body : M A) (final : M unit) : M A :=
  fun st =>
    match body st with
    | (tr, st', Pending) => (tr, st', Pending)
    | (tr, st', o) =>
        match final st' with
        | (tr', st'', Returns _) => (tr ++ tr', st'', o)
        | (tr', st'', Throws e) => (tr ++ tr', st'', Throws e)
        | (tr', st'', Pending) => (tr ++ tr', st'', Pending)
        end
    end.
Arguments try_finally {A} body final.

(** [for (const x of l) { acc = body x acc }] *)
Fixpoint for_of {A S} (l : list A) (acc : S) (body : A -> S -> M S) : M S :=
  match l with
  | [] => ret acc
  | x :: rest => acc' <- body x acc ;; for_of rest acc' body
  end.

(** The state setters. *)
Definition set_input (s : string) : M unit :=
  update (setInput s)
    (fun st => State s (messages st) (agents st) (loading st) (loadingAgents st)
                 (backendOnline st) (chatMode st) (showAdvanced st)
                 (forceAllAgents st) (selectedAgent st)).

Definition append_message (m : value) : M unit :=
  update (setMessages m)
    (fun st => State (input st) (messages st ++ [m]) (agents st) (loading st)
                 (loadingAgents st) (backendOnline st) (chatMode st)
                 (showAdvanced st) (forceAllAgents st) (selectedAgent st)).

Definition overlay_agents (newAgentData : gmap string agent) : M unit :=
  update (setAgents newAgentData)
    (fun st => State (input st) (messages st) (newAgentData ∪ agents st) (loading st)
                 (loadingAgents st) (backendOnline st) (chatMode st)
                 (showAdvanced st) (forceAllAgents st) (selectedAgent st)).

Definition set_loading (b : bool) : M unit :=
  update (setLoading b)
    (fun st => State (input st) (messages st) (agents st) b (loadingAgents st)
                 (backendOnline st) (chatMode st) (showAdvanced st)
                 (forceAllAgents st) (selectedAgent st)).

Definition set_loadingAgents (b : bool) : M unit :=
  update (setLoadingAgents b)
    (fun st => State (input st) (messages st) (agents st) (loading st) b
                 (backendOnline st) (chatMode st) (showAdvanced st)
                 (forceAllAgents st) (selectedAgent st)).

Definition set_backendOnline (b : bool) : M unit :=
  update (setBackendOnline b)
    (fun st => State (input st) (messages st) (agents st) (loading st)
                 (loadingAgents st) b (chatMode st) (showAdvanced st)
                 (forceAllAgents st) (selectedAgent st)).

Section Component.

Variable AGENT_IDS : list string.
Variable network : Api.request -> Api.transport.

(** The gateway run behind each call. *)
Definition run_of (c : call) : Api.run :=
  match c with
  | getAgentStatus agentId => Api.getAgentStatus network agentId
  | getAgentCost agentId => Api.getAgentCost network agentId
  | sendSimpleChat query agentId => Api.sendSimpleChat network query agentId
  | sendQuery query agentId force => Api.sendQuery network query agentId force
  end.

(** The handler resumes from an [await] on the calls [cs] with what the
    awaited promise settled with, or never. *)
Definition resume {A} (cs : list call) (o : outcome A) : M A :=
  fun st =>
    match o with
    | Pending => ([], st, Pending)
    | _ => ([settled cs], st, o)
    end.

(** [await c] *)
Definition await (c : call) : M value :=
  emit (issued c) ;;
  resume [c] (Api.result (run_of c)).

(** [Promise.all([p1, p2])]: fulfils once both promises have, rejects as soon
    as one of them rejects (with the first of the two when they reject at the
    same time), and otherwise never settles. *)
Definition promise_all (r1 r2 : Api.run) : outcome (value * value) :=
  match Api.result r1, Api.result r2 with
  | Returns v1, Returns v2 => Returns (v1, v2)
  | Throws e1, Throws e2 =>
      match Api.elapsed r1, Api.elapsed r2 with
      | Some t1, Some t2 => if (t2 <? t1)%N then Throws e2 else Throws e1
      | _, _ => Throws e1
      end
  | Throws e, _ | _, Throws e => Throws e
  | _, _ => Pending
  end.

(** [await Promise.all([c1, c2])]: both calls are started, then the handler
    waits. *)
Definition await_all (c1 c2 : call) : M (value * value) :=
  emit (issued c1) ;;
  emit (issued c2) ;;
  resume [c1; c2] (promise_all (run_of c1) (run_of c2)).

(** Lines 47-64: one round of the loop. The locals [newAgentData] and
    [successCount] are written only after the last expression that can throw
    (the property reads and [parseFloat]), so a round that throws leaves both
    as they were. *)
Definition refresh_round (id : string) (locals : gmap string agent * nat)
  : M (gmap string agent * nat) :=
  try_catch
    ('(statusRes, costRes) <- await_all (getAgentStatus id) (getAgentCost id) ;;
     status_success <- lift (get statusRes "success") ;;
     both <- (if truthy status_success
              then lift (get costRes "success")
              else ret status_success) ;;
     if truthy both then
       status_data <- lift (get statusRes "data") ;;
       status <- lift (get status_data "status") ;;
       budget_limit_usd <- lift (get status_data "budget_limit_usd") ;;
       budgetLimit <- lift (parseFloat budget_limit_usd) ;;
       cost_data <- lift (get costRes "data") ;;
       total_cost_usd <- lift (get cost_data "total_cost_usd") ;;
       ret (<[id := Agent id status budgetLimit total_cost_usd]> (fst locals),
            S (snd locals))
     else ret locals)
    (fun error =>
       emit (console_error ("Error processing data for " +:+ id) error) ;;
       ret locals).

(** [closure] is the render whose [agents] the function closed over. *)
Definition refreshAgentData (closure : state) : M unit :=
  emit entered_refreshAgentData ;;
  (if Nat.eqb (size (agents closure)) 0 then set_loadingAgents true else ret tt) ;;
  '(newAgentData, successCount) <- for_of AGENT_IDS (∅, 0) refresh_round ;;
  (if Nat.ltb 0 successCount then
     overlay_agents newAgentData ;;
     set_backendOnline true
   else
     set_backendOnline false) ;;
  set_loadingAgents false.

Definition warning_sign : string :=
  string_of_list_ascii (utf8 [226; 154; 160; 239; 184; 143]).

(** Lines 86-143. *)
Definition handleSend (closure : state) : M unit :=
  emit preventDefault ;;
  let trimmed := trim (input closure) in
  if negb (truthy (str trimmed)) then ret tt
  else
    let userMsg := object [("role", str "user"); ("content", str trimmed)] in
    append_message userMsg ;;
    set_input "" ;;
    set_loading true ;;
    try_finally
      (try_catch
         (result <-
            (if String.eqb (chatMode closure) "simple" then
               result <- await (sendSimpleChat trimmed (selectedAgent closure)) ;;
               success <- lift (get result "success") ;;
               (if truthy success then
                  data <- lift (get result "data") ;;
                  response <- lift (get data "response") ;;
                  cost_usd <- lift (get data "cost_usd") ;;
                  model_used <- lift (get data "model_used") ;;
                  agent_id <- lift (get data "agent_id") ;;
                  append_message
                    (object [("role", str "assistant");
                             ("content", response);
                             ("cost", cost_usd);
                             ("model_used", model_used);
                             ("agent_id", agent_id)])
                else ret tt) ;;
               ret result
             else
               result <- await (sendQuery trimmed "user_agent" (forceAllAgents closure)) ;;
               success <- lift (get result "success") ;;
               (if truthy success then
                  data <- lift (get result "data") ;;
                  final_answer <- lift (get data "final_answer") ;;
                  total_cost <- lift (get data "total_cost") ;;
                  agents_used <- lift (get data "agents_used") ;;
                  routing_decision <- lift (get data "routing_decision") ;;
                  append_message
                    (object [("role", str "assistant");
                             ("content", final_answer);
                             ("cost", total_cost);
                             ("agents_used", agents_used);
                             ("routing_decision", routing_decision)])
                else ret tt) ;;
               ret result) ;;
          success <- lift (get result "success") ;;
          (if negb (truthy success) then
             error <- lift (get result "error") ;;
             text <- lift (to_string (or error (str "Failed to get response."))) ;;
             append_message
               (object [("role", str "assistant");
                        ("content", str (warning_sign +:+ " Error: " +:+ text))])
           else ret tt) ;;
          refreshAgentData closure)
         (fun error =>
            append_message
              (object [("role", str "assistant");
                       ("content", str "Critical Error: Client failed to process request.")])))
      (set_loading false).

End Component.

End App.

(* ================================================================== *)
(** * The 3D view's polling ([components/CircuitMesh3D.jsx]) *)
(* ================================================================== *)

Module CircuitMesh3D.
Import Js.

Section Polling.

Variable AGENT_IDS : list string.
Variable network : Api.request -> Api.transport.

(** Lines 348-355: the callback mapped over [AGENT_IDS]. *)
Definition poll (id : string) : outcome value :=
  obind (Api.result (Api.getAgentStatus network id)) (fun status =>
  obind (get status "status") (fun status_status =>
  obind (get status "failure_count") (fun failure_count =>
  Returns (object [("id", str id);
                   ("status", status_status);
                   ("failureCount", or failure_count (num zero))])))).

(** [await Promise.all(promises)]: the results when every promise fulfils,
    a rejection when one of them rejects (the one that comes first in the
    array stands for the one that comes first in time: the caller only logs
    it), and nothing as long as one is pending and none has rejected. *)
Fixpoint all (promises : list (outcome value)) : outcome (list value) :=
  match promises with
  | [] => Returns []
  | p :: rest =>
      match p, all rest with
      | Throws e, _ | _, Throws e => Throws e
      | Returns v, Returns vs => Returns (v :: vs)
      | _, _ => Pending
      end
  end.

(** Lines 346-361: one poll. The component's [agents] array is replaced by
    the results; it is left as it is when the [catch] runs, and when the
    [await] never resumes. *)
Definition fetchStates (agents : list value) : list value :=
  match all (map poll AGENT_IDS) with
  | Returns results => results
  | Throws _ => agents
  | Pending => agents
  end.

End Polling.

End CircuitMesh3D.

(** The identifiers both components are configured with. *)
Definition AGENT_IDS : list string := ["coordinator"; "researcher"; "coder"].

(* ================================================================== *)
(** * The vocabulary of the properties *)
(* ================================================================== *)

Module Spec.
Import Js.

Definition timeout_message : string :=
  "Request timed out. Backend is slow or unreachable.".
Definition unreachable_message : string :=
  "Cannot connect to backend. Is the server running?".

(** A property read that does not throw; a missing property reads as
    [undefined]. *)
Definition prop (v : value) (key : string) : value :=
  match get v key with
  | Returns x => x
  | _ => undefined
  end.

(** The call ends: the promise it returns settles. *)
Definition ends (r : Api.run) : bool :=
  match Api.result r with
  | Pending => false
  | _ => true
  end.

(** The [success] flag of a gateway call that has ended, and its [data]. *)
Definition succeeded (r : Api.run) : bool :=
  match Api.result r with
  | Returns envelope => truthy (prop envelope "success")
  | _ => false
  end.

Definition data_of (r : Api.run) : value :=
  match Api.result r with
  | Returns envelope => prop envelope "data"
  | _ => undefined
  end.

(** The property names of an object literal. *)
Definition keys (v : value) : list string :=
  match v with
  | object props => map fst props
  | _ => []
  end.

Definition nullish (v : value) : bool :=
  match v with
  | undefined | null => true
  | _ => false
  end.

(** The value can be converted to a string. *)
Definition convertible (v : value) : bool :=
  match to_text v with
  | Some _ => true
  | None => false
  end.

(** The call settles with one of the two envelopes, and does not throw. *)
Definition resolves_to_envelope (r : Api.run) : Prop :=
  exists envelope,
    Api.result r = Returns envelope /\
    ((exists data, envelope = Api.envelope_success data) \/
     (exists errorMsg, envelope = Api.envelope_failure errorMsg)).

(** The call never rejects: unless it never settles, it resolves to an
    envelope. *)
Definition never_rejects (r : Api.run) : Prop :=
  Api.result r = Pending \/ resolves_to_envelope r.

Definition error_of (r : Api.run) : value :=
  match Api.result r with
  | Returns envelope => prop envelope "error"
  | _ => undefined
  end.

(** The message of a failure envelope. *)
Definition error_text (r : Api.run) : string :=
  match error_of r with
  | str errorMsg => errorMsg
  | _ => ""
  end.

Section Gateway.

Variable network : Api.request -> Api.transport.

(** The request is answered by the response [r] before the timer fires. *)
Definition responds (endpoint : string) (options : Api.options) (r : Api.response) : Prop :=
  exists ms,
    Api.latency (network (Api.Request endpoint options)) = Some ms /\
    (ms < Api.TIMEOUT_MS)%N /\
    Api.settles (network (Api.Request endpoint options)) = Api.fulfilled r.

(** The transport attempt fails with the error [e] before the timer fires. *)
Definition fails (endpoint : string) (options : Api.options) (e : error) : Prop :=
  exists ms,
    Api.latency (network (Api.Request endpoint options)) = Some ms /\
    (ms < Api.TIMEOUT_MS)%N /\
    Api.settles (network (Api.Request endpoint options)) = Api.rejected e.

(** The transport attempt has not settled when the timer fires. *)
Definition times_out (endpoint : string) (options : Api.options) : Prop :=
  forall ms,
    Api.latency (network (Api.Request endpoint options)) = Some ms ->
    (Api.TIMEOUT_MS <= ms)%N.

(** The request is answered before the timer fires by a response whose body
    never arrives in full. *)
Definition stalls (endpoint : string) (options : Api.options) : Prop :=
  exists r, responds endpoint options r /\ Api.json r = Pending.

End Gateway.

(** Every body whose head arrives is read to its end, or fails to parse:
    no body read is left waiting. *)
Definition bodies_arrive (network : Api.request -> Api.transport) : Prop :=
  forall request r,
    Api.settles (network request) = Api.fulfilled r -> Api.json r <> Pending.

(** The structured field of an error body: [detail] when the body is a JSON
    object with a truthy [detail], else [message] when that is truthy. *)
Definition structured_field (r : Api.response) : option value :=
  match Api.json r with
  | Returns (object props) =>
      if truthy (lookup_prop "detail" props) then Some (lookup_prop "detail" props)
      else if truthy (lookup_prop "message" props) then Some (lookup_prop "message" props)
      else None
  | _ => None
  end.

Definition dedicated_statuses : list (N * string) :=
  [ (404%N, "Resource not found (404)");
    (429%N, "Rate limit exceeded. Please wait a moment.");
    (500%N, "Server error. Please try again later.");
    (502%N, "Server error. Please try again later.");
    (503%N, "Server error. Please try again later.") ].

Fixpoint dedicated (status : N) (table : list (N * string)) : option string :=
  match table with
  | [] => None
  | (code, wording) :: rest => if N.eqb status code then Some wording else dedicated status rest
  end.

(** The message of a failed response, worded from the table: the dedicated
    wording of the status when it has one; otherwise the generic wrapper
    around the structured field or the default text, or, when the structured
    field cannot be converted to a string, the message of the error that the
    conversion throws. *)
Definition described_message (r : Api.response) : string :=
  match dedicated (Api.status r) dedicated_statuses with
  | Some wording => wording
  | None =>
      match structured_field r with
      | Some field =>
          match to_text field with
          | Some text => "Error: " +:+ text
          | None => error_message not_primitive
          end
      | None => "Error: An unexpected error occurred"
      end
  end.

(** The message a rejected [fetch] is reported with: the one of an
    unreachable backend when the error's own message carries one of the two
    markers, that message itself otherwise. *)
Definition rejection_message (e : error) : string :=
  if includes (error_message e) "Failed to fetch" || includes (error_message e) "NetworkError"
  then unreachable_message
  else error_message e.

Section Component.

Variable AGENT_IDS : list string.
Variable network : Api.request -> Api.transport.

(** Both calls of the identity's pair ended. *)
Definition pair_ends (id : string) : bool :=
  ends (Api.getAgentStatus network id) && ends (Api.getAgentCost network id).

(** Every pair of the cycle ended. *)
Definition completes : bool := forallb pair_ends AGENT_IDS.

(** Both calls of the identity's pair returned a success envelope. *)
Definition pair_succeeded (id : string) : bool :=
  succeeded (Api.getAgentStatus network id) && succeeded (Api.getAgentCost network id).

(** The entry can be built from the two envelopes: both carry data whose
    properties can be read, and the budget limit can be converted to a
    string, as [parseFloat] does first. *)
Definition pair_readable (id : string) : bool :=
  negb (nullish (data_of (Api.getAgentStatus network id))) &&
  negb (nullish (data_of (Api.getAgentCost network id))) &&
  convertible (prop (data_of (Api.getAgentStatus network id)) "budget_limit_usd").

Definition incorporated (id : string) : bool := pair_succeeded id && pair_readable id.

(** The entry built from this cycle's two responses, for an identity that is
    incorporated. *)
Definition snapshot (id : string) : App.agent :=
  App.Agent id
    (prop (data_of (Api.getAgentStatus network id)) "status")
    (App.parsed
       (default "" (to_text (prop (data_of (Api.getAgentStatus network id)) "budget_limit_usd"))))
    (prop (data_of (Api.getAgentCost network id)) "total_cost_usd").

(** The overlay a cycle builds: the snapshots of the incorporated identities. *)
Definition overlay (ids : list string) (newAgentData : gmap string App.agent)
  : gmap string App.agent :=
  fold_left (fun acc id => if incorporated id then <[id := snapshot id]> acc else acc)
            ids newAgentData.

Definition pair_issues (id : string) : list App.event :=
  [ App.issued (App.getAgentStatus id);
    App.issued (App.getAgentCost id) ].

Definition pair_requests (id : string) : list App.event :=
  [ App.issued (App.getAgentStatus id);
    App.issued (App.getAgentCost id);
    App.settled [App.getAgentStatus id; App.getAgentCost id] ].

(** The requests of a loop over [ids]: pair after pair, up to and including
    the issue of the first pair that never ends. *)
Fixpoint requested (ids : list string) : list App.event :=
  match ids with
  | [] => []
  | id :: rest => if pair_ends id then pair_requests id ++ requested rest else pair_issues id
  end.

(** The number of identities incorporated this cycle. *)
Definition fresh_count : nat := length (List.filter incorporated AGENT_IDS).

(** The store after a refresh that ran to its end. *)
Definition refreshed (st : App.state) : App.state :=
  App.State (App.input st) (App.messages st)
    (if Nat.ltb 0 fresh_count then overlay AGENT_IDS ∅ ∪ App.agents st else App.agents st)
    (App.loading st) false (Nat.ltb 0 fresh_count)
    (App.chatMode st) (App.showAdvanced st) (App.forceAllAgents st) (App.selectedAgent st).

(** The store of a refresh that waits for a pair. *)
Definition waiting (closure st : App.state) : App.state :=
  App.State (App.input st) (App.messages st) (App.agents st) (App.loading st)
    (if Nat.eqb (size (App.agents closure)) 0 then true else App.loadingAgents st)
    (App.backendOnline st)
    (App.chatMode st) (App.showAdvanced st) (App.forceAllAgents st) (App.selectedAgent st).

(** What a refresh does before and after its loop. *)
Definition loading_flag (closure : App.state) : list App.event :=
  if Nat.eqb (size (App.agents closure)) 0 then [App.setLoadingAgents true] else [].

Definition publication : list App.event :=
  (if Nat.ltb 0 fresh_count
   then [App.setAgents (overlay AGENT_IDS ∅); App.setBackendOnline true]
   else [App.setBackendOnline false]) ++ [App.setLoadingAgents false].

(** A refresh from its first statement on, given the events of its loop:
    what it does, the store it leaves, and how it ends. *)
Definition refresh_events (closure : App.state) (rounds : list App.event) : list App.event :=
  loading_flag closure ++ rounds ++ (if completes then publication else []).

Definition refresh_store (closure st : App.state) : App.state :=
  if completes then refreshed st else waiting closure st.

Definition refresh_outcome : outcome unit :=
  if completes then Returns tt else Pending.

(** The chat call a send makes, by the mode of the render it runs in. *)
Definition chat_call (closure : App.state) : App.call :=
  if String.eqb (App.chatMode closure) "simple"
  then App.sendSimpleChat (trim (App.input closure)) (App.selectedAgent closure)
  else App.sendQuery (trim (App.input closure)) "user_agent" (App.forceAllAgents closure).

Definition chat_run (closure : App.state) : Api.run :=
  App.run_of network (chat_call closure).

(** The two assistant entries, by mode. *)
Definition simple_entry (data : value) : value :=
  object [("role", str "assistant");
          ("content", prop data "response");
          ("cost", prop data "cost_usd");
          ("model_used", prop data "model_used");
          ("agent_id", prop data "agent_id")].

Definition multi_agent_entry (data : value) : value :=
  object [("role", str "assistant");
          ("content", prop data "final_answer");
          ("cost", prop data "total_cost");
          ("agents_used", prop data "agents_used");
          ("routing_decision", prop data "routing_decision")].

Definition user_entry (closure : App.state) : value :=
  object [("role", str "user"); ("content", str (trim (App.input closure)))].

Definition critical_entry : value :=
  object [("role", str "assistant");
          ("content", str "Critical Error: Client failed to process request.")].

(** The entry that reports a failure envelope with the message [errorMsg]. *)
Definition error_entry (errorMsg : string) : value :=
  object [("role", str "assistant");
          ("content",
           str (App.warning_sign +:+ " Error: " +:+
                (if String.eqb errorMsg "" then "Failed to get response." else errorMsg)))].

(** The chat call returned a success envelope whose data cannot be read. *)
Definition malformed (closure : App.state) : bool :=
  succeeded (chat_run closure) && nullish (data_of (chat_run closure)).

(** The assistant entry that answers a send whose response is not malformed. *)
Definition reply_entry (closure : App.state) : value :=
  if succeeded (chat_run closure) then
    if String.eqb (App.chatMode closure) "simple"
    then simple_entry (data_of (chat_run closure))
    else multi_agent_entry (data_of (chat_run closure))
  else error_entry (error_text (chat_run closure)).

(** The store once the user entry is appended, the store once the assistant
    entry is appended as well, and the store once the send is over. *)
Definition asked (closure st : App.state) : App.state :=
  App.State "" (App.messages st ++ [user_entry closure]) (App.agents st) true
    (App.loadingAgents st) (App.backendOnline st) (App.chatMode st)
    (App.showAdvanced st) (App.forceAllAgents st) (App.selectedAgent st).

Definition sending (closure st : App.state) (entry : value) : App.state :=
  App.State "" ((App.messages st ++ [user_entry closure]) ++ [entry]) (App.agents st) true
    (App.loadingAgents st) (App.backendOnline st) (App.chatMode st)
    (App.showAdvanced st) (App.forceAllAgents st) (App.selectedAgent st).

Definition idle (st : App.state) : App.state :=
  App.State (App.input st) (App.messages st) (App.agents st) false
    (App.loadingAgents st) (App.backendOnline st) (App.chatMode st)
    (App.showAdvanced st) (App.forceAllAgents st) (App.selectedAgent st).

(** What a send does up to the moment it waits for its chat call, and up to
    the moment that call has settled. *)
Definition opening (closure : App.state) : list App.event :=
  [ App.preventDefault;
    App.setMessages (user_entry closure);
    App.setInput "";
    App.setLoading true;
    App.issued (chat_call closure) ].

Definition prologue (closure : App.state) : list App.event :=
  opening closure ++ [App.settled [chat_call closure]].

(** The send runs to its end: its chat call ends, and so does the refresh
    that follows when the response can be read. *)
Definition send_ends (closure : App.state) : bool :=
  ends (chat_run closure) && (malformed closure || completes).

End Component.

(** The node the 3D view derives for an identity when it reads the circuit
    status and the failure count off the envelope itself. *)
Definition blind_node (id : string) : value :=
  object [("id", str id); ("status", undefined); ("failureCount", num zero)].

(** Every status call of a poll ends. *)
Definition polls_end (ids : list string) (network : Api.request -> Api.transport) : bool :=
  forallb (fun id => ends (Api.getAgentStatus network id)) ids.

(** Classes of events. *)
Definition is_issue (e : App.event) : bool :=
  match e with App.issued _ => true | _ => false end.
Definition is_settle (e : App.event) : bool :=
  match e with App.settled _ => true | _ => false end.
Definition is_request (e : App.event) : bool := is_issue e || is_settle e.
Definition is_console (e : App.event) : bool :=
  match e with App.console_error _ _ => true | _ => false end.
Definition request_or_console (e : App.event) : bool := is_request e || is_console e.
Definition is_refresh (e : App.event) : bool :=
  match e with App.entered_refreshAgentData => true | _ => false end.
Definition is_publication (e : App.event) : bool :=
  match e with App.setAgents _ | App.setBackendOnline _ => true | _ => false end.
Definition is_assistant_entry (e : App.event) : bool :=
  match e with
  | App.setMessages m =>
      match prop m "role" with str role => String.eqb role "assistant" | _ => false end
  | _ => false
  end.

(** Fan-out: every call is issued before the handler waits for any. *)
Fixpoint fanned_out (tr : list App.event) : bool :=
  match tr with
  | [] => true
  | e :: rest => (if is_settle e then forallb (fun e' => negb (is_issue e')) rest else true)
                 && fanned_out rest
  end.

(** Text made of whitespace only: a sequence of [trim]'s characters. *)
Definition whitespace_only (s : string) : Prop :=
  exists ws, Forall (fun w => In w whitespace) ws /\ s = string_of_list_ascii (concat ws).

(** The outcome of running a handler against a store. *)
Definition trace_of {A} (r : list App.event * App.state * outcome A) : list App.event :=
  fst (fst r).
Definition store_of {A} (r : list App.event * App.state * outcome A) : App.state :=
  snd (fst r).
Definition outcome_of {A} (r : list App.event * App.state * outcome A) : outcome A :=
  snd r.

End Spec.

(* ================================================================== *)
(** * Concrete networks and renders *)
(* ================================================================== *)

Module Examples.
Import Js.

(** A backend that answers after 20 ms and whose body takes 5 ms more. *)
Definition answers (status : N) (body : outcome value) : Api.transport :=
  Api.Transport (Some 20%N) (Api.fulfilled (Api.Response status body 5)).

Definition not_json : outcome value :=
  Throws (Error "SyntaxError" "Unexpected token '<' is not valid JSON").

(** A backend that never answers. *)
Definition silent : Api.request -> Api.transport :=
  fun _ => Api.Transport None (Api.rejected (Error "TypeError" "Failed to fetch")).

(** A backend whose response head arrives after 50 ms and whose body takes
    another 30 seconds. *)
Definition slow_body : Api.request -> Api.transport :=
  fun _ => Api.Transport (Some 50%N)
             (Api.fulfilled (Api.Response 200 (Returns (object [("status", str "closed")])) 30000)).

(** A backend whose response head arrives after 50 ms and whose body never
    arrives in full. *)
Definition stalled_body : Api.request -> Api.transport :=
  fun _ => Api.Transport (Some 50%N) (Api.fulfilled (Api.Response 200 Pending 0)).

(** A backend that refuses the connection after 3 ms. *)
Definition refused : Api.request -> Api.transport :=
  fun _ => Api.Transport (Some 3%N) (Api.rejected (Error "TypeError" "Failed to fetch")).

(** A backend that answers after 12 seconds. *)
Definition sluggish : Api.request -> Api.transport :=
  fun _ => Api.Transport (Some 12000%N)
             (Api.fulfilled (Api.Response 200 (Returns (object [])) 5)).

(** A backend that knows no agent and says which one it was asked for. *)
Definition unknown_agent : Api.request -> Api.transport :=
  fun _ => answers 404 (Returns (object [("detail", str "Agent coder is not registered")])).

(** A gateway in front of the backend that has given up waiting. *)
Definition gateway_timeout : Api.request -> Api.transport :=
  fun _ => answers 504 not_json.

(** A backend that rejects the request and explains why. *)
Definition bad_request : Api.request -> Api.transport :=
  fun _ => answers 400 (Returns (object [("detail", str "query must not be empty")])).

(** A backend in good health. *)
Definition circuit_body : value :=
  object [("status", str "closed");
          ("failure_count", num (Number true "2"));
          ("budget_limit_usd", str "10.00")].

Definition cost_body : value :=
  object [("total_cost_usd", num (Number true "0.42"))].

Definition chat_body : value :=
  object [("response", str "Hello!");
          ("cost_usd", num (Number true "0.001"));
          ("model_used", str "small-model");
          ("agent_id", str "coordinator")].

Definition query_body : value :=
  object [("final_answer", str "Done.");
          ("total_cost", num (Number true "0.02"));
          ("agents_used", array [str "researcher"; str "coder"]);
          ("routing_decision", str "research, then code")].

Definition healthy : Api.request -> Api.transport :=
  fun r =>
    if includes (Api.endpoint r) "/circuit" then answers 200 (Returns circuit_body)
    else if includes (Api.endpoint r) "/cost" then answers 200 (Returns cost_body)
    else if String.eqb (Api.endpoint r) "/api/chat" then answers 200 (Returns chat_body)
    else answers 200 (Returns query_body).

(** The same backend, except that the researcher's circuit endpoint answers
    200 with the JSON text [null]. *)
Definition null_researcher : Api.request -> Api.transport :=
  fun r =>
    if String.eqb (Api.endpoint r) "/api/agents/researcher/circuit"
    then answers 200 (Returns null)
    else healthy r.

(** The same backend, except that the researcher's circuit endpoint fails
    with a 500 while its cost endpoint answers. *)
Definition researcher_circuit_down : Api.request -> Api.transport :=
  fun r =>
    if String.eqb (Api.endpoint r) "/api/agents/researcher/circuit"
    then answers 500 not_json
    else healthy r.

(** The same backend, except that the researcher's circuit endpoint reports
    a budget limit that cannot be converted to a string: the JSON text
    [{"status": "closed", "budget_limit_usd": {"toString": 1}}]. *)
Definition odd_budget : value :=
  object [("status", str "closed");
          ("budget_limit_usd", object [("toString", num (Number true "1"))])].

Definition odd_researcher : Api.request -> Api.transport :=
  fun r =>
    if String.eqb (Api.endpoint r) "/api/agents/researcher/circuit"
    then answers 200 (Returns odd_budget)
    else healthy r.

(** The same backend, except that the body of the researcher's cost endpoint
    never arrives in full. *)
Definition researcher_cost_stalls : Api.request -> Api.transport :=
  fun r =>
    if String.eqb (Api.endpoint r) "/api/agents/researcher/cost"
    then stalled_body r
    else healthy r.

(** A backend that answers every request with 200 and the JSON text [null]. *)
Definition all_null : Api.request -> Api.transport :=
  fun _ => answers 200 (Returns null).

(** The researcher's entry from an earlier cycle. *)
Definition earlier_researcher : App.agent :=
  App.Agent "researcher" (str "open") (App.parsed "5.00") (num (Number true "4.99")).

(** A render that knows the researcher, online, in multi-agent mode. *)
Definition later_render : App.state :=
  App.State "" [] {[ "researcher" := earlier_researcher ]} false false true
    "multi-agent" false false "coordinator".

(** A render in simple mode with a message typed in, and one with blanks. *)
Definition typed_render : App.state :=
  App.State "  hello " [] {[ "researcher" := earlier_researcher ]} false false true
    "simple" false false "coordinator".

Definition blank_render : App.state :=
  App.State "   " [] {[ "researcher" := earlier_researcher ]} false false true
    "simple" false false "coordinator".

End Examples.

(* ================================================================== *)
(** * The statistics of the dashboard ([App.jsx], line 31) *)
(* ================================================================== *)

Module View.
Import Js.

(** Line 31: [messages.filter(m => m.role === 'user').length]. Reading
    [role] throws on an entry that is [null] or [undefined]. *)
Definition is_user (m : value) : outcome bool :=
  obind (get m "role") (fun role =>
  Returns (match role with
           | str r => String.eqb r "user"
           | _ => false
           end)).

Fixpoint totalQueries (messages : list value) : outcome nat :=
  match messages with
  | [] => Returns 0
  | m :: rest =>
      obind (is_user m) (fun user =>
      obind (totalQueries rest) (fun n =>
      Returns (if user then S n else n)))
  end.

End View.

(* ================================================================== *)
(** * The 3D scene ([components/CircuitMesh3D.jsx], drawing) *)
(* ================================================================== *)

Module Scene.
Import Js.

Definition red : string := "#ef4444".
Definition yellow : string := "#eab308".
Definition green : string := "#22c55e".

(** Lines 12-19: the colour of a node, a [switch] on the status. *)
Definition node_color (status : value) : string :=
  match status with
  | str s =>
      if String.eqb s "open" then red
      else if String.eqb s "half_open" then yellow
      else green
  | _ => green
  end.

(** Line 53: the colour of the line that ties a node to the centre. *)
Definition connection_color (status : value) : string :=
  match status with
  | str s =>
      if String.eqb s "closed" then green
      else if String.eqb s "half_open" then yellow
      else red
  | _ => red
  end.

(** A drawn node: the name it is given and the colour and failure count it
    is drawn with. Sizes and positions are floating point and left out. *)
Record node := Node { name : value; color : string; failureCount : value }.

Record scene := Scene {
  center : node;
  orbit : list (node * string)
}.

(** [agents.find(a => a.id === 'coordinator')] *)
Fixpoint find_coordinator (agents : list value) : outcome (option value) :=
  match agents with
  | [] => Returns None
  | a :: rest =>
      obind (get a "id") (fun id =>
      match id with
      | str s => if String.eqb s "coordinator" then Returns (Some a)
                 else find_coordinator rest
      | _ => find_coordinator rest
      end)
  end.

(** [agents.filter(a => a.id !== 'coordinator')] *)
Fixpoint others (agents : list value) : outcome (list value) :=
  match agents with
  | [] => Returns []
  | a :: rest =>
      obind (get a "id") (fun id =>
      obind (others rest) (fun kept =>
      Returns (match id with
               | str s => if String.eqb s "coordinator" then kept else a :: kept
               | _ => a :: kept
               end)))
  end.

(** One orbiting agent with its connection (lines 100-118). *)
Definition orbiter (agent : value) : outcome (node * string) :=
  obind (get agent "id") (fun id =>
  obind (get agent "status") (fun status =>
  obind (get agent "failureCount") (fun failureCount =>
  Returns (Node id (node_color status) failureCount, connection_color status)))).

Fixpoint orbiters (agents : list value) : outcome (list (node * string)) :=
  match agents with
  | [] => Returns []
  | a :: rest =>
      obind (orbiter a) (fun o =>
      obind (orbiters rest) (fun os => Returns (o :: os)))
  end.

(** Lines 72-121: [SceneContent]. The coordinator that is not among the
    agents is drawn as a closed one without failures. *)
Definition SceneContent (agents : list value) : outcome scene :=
  obind (find_coordinator agents) (fun found =>
  let coordinator :=
    match found with
    | Some a => a
    | None => object [("status", str "closed"); ("failureCount", num zero)]
    end in
  obind (others agents) (fun rest =>
  obind (get coordinator "status") (fun status =>
  obind (get coordinator "failureCount") (fun failureCount =>
  obind (orbiters rest) (fun drawn =>
  Returns (Scene (Node (str "Coordinator") (node_color status) failureCount) drawn)))))).

End Scene.

(* ================================================================== *)
(** * More vocabulary: notifications, chat calls, statuses *)
(* ================================================================== *)

Module Behaviour.
Import Js.

(** How a wrapper of the [api] object announces a call. It raises the
    loading toast first. When the call ends, it dismisses the toast with the
    id of that loading toast, after the gateway's error toast if the call
    failed, and then raises the success toast if it has one and the call
    succeeded. When the call never ends, the loading toast stays up. *)
Definition announced (loading : string) (celebrates : bool) (r : Api.run) : Prop :=
  exists id,
    nth_error (Api.toasts r) id = Some (Api.toast_loading loading) /\
    ((exists data,
         Api.result r = Returns (Api.envelope_success data) /\
         Api.toasts r =
         Api.toast_loading loading :: Api.toast_dismiss id ::
         (if celebrates then [Api.toast_success "Response received!"] else [])) \/
     (exists errorMsg,
         Api.result r = Returns (Api.envelope_failure errorMsg) /\
         Api.toasts r =
         [Api.toast_loading loading; Api.toast_error errorMsg; Api.toast_dismiss id]) \/
     (Api.result r = Pending /\
      Api.toasts r = [Api.toast_loading loading])).

(** The issue of one of the two chat calls. *)
Definition is_chat_issue (e : App.event) : bool :=
  match e with
  | App.issued (App.sendSimpleChat _ _) | App.issued (App.sendQuery _ _ _) => true
  | _ => false
  end.

(** The text of the assistant entry that reports a failed chat call. *)
Definition reported (errorMsg : string) : string :=
  App.warning_sign +:+ " Error: " +:+
  (if String.eqb errorMsg "" then "Failed to get response." else errorMsg).

(** An entry of the agents object is filed under the name it carries. *)
Definition filed_by_name (agents : gmap string App.agent) : Prop :=
  map_Forall (fun id agent => App.name agent = id) agents.

Definition known_status (status : value) : bool :=
  match status with
  | str s => String.eqb s "open" || String.eqb s "half_open" || String.eqb s "closed"
  | _ => false
  end.

Definition not_coordinator (id : string) : bool := negb (String.eqb id "coordinator").

(** A render with two earlier questions in its timeline. *)
Definition asked_twice : App.state :=
  App.State "  hello " [ object [("role", str "user"); ("content", str "first")];
                         object [("role", str "assistant"); ("content", str "one")];
                         object [("role", str "user"); ("content", str "second")];
                         object [("role", str "assistant"); ("content", str "two")] ]
    ∅ false false true "multi-agent" false true "coder".

(** A backend whose chat endpoints are down while the agents answer. *)
Definition chat_down : Api.request -> Api.transport :=
  fun r =>
    if includes (Api.endpoint r) "/api/agents/" then Examples.healthy r
    else Examples.answers 503 Examples.not_json.

End Behaviour.

(* ================================================================== *)
(** * Properties of the request gateway *)
(* ================================================================== *)

Import Js.
Import Spec.

(** Closes a statement about a concrete run by evaluating the run. *)
Ltac by_evaluation := vm_compute; repeat split; reflexivity.

Section GatewayFacts.

Variable network : Api.request -> Api.transport.

(** The settlement [apiFetch] works from, case by case. *)
Lemma fetch_cases endpoint options :
  let t := network (Api.Request endpoint options) in
  (times_out network endpoint options /\
   Api.fetch t = (Api.rejected Api.AbortError, true, Api.TIMEOUT_MS)) \/
  (exists ms, Api.latency t = Some ms /\ (ms < Api.TIMEOUT_MS)%N /\
              Api.fetch t = (Api.settles t, false, ms)).
Proof.
  cbv zeta. unfold times_out, Api.fetch.
  destruct (Api.latency _) as [ ms | ] eqn:Hlat.
  - destruct (N.ltb_spec ms Api.TIMEOUT_MS) as [Hlt | Hge].
    + right. exists ms. auto.
    + left. split; [ | reflexivity ]. now intros ms' [= <-].
  - left. split; [ | reflexivity ]. intros ms' Hms. discriminate Hms.
Qed.

Lemma fetch_responds endpoint options r :
  responds network endpoint options r ->
  exists ms, Api.fetch (network (Api.Request endpoint options)) = (Api.fulfilled r, false, ms).
Proof.
  intros (ms & Hlat & Hms & Hsettles). exists ms.
  unfold Api.fetch. rewrite Hlat, Hsettles.
  now apply N.ltb_lt in Hms as ->.
Qed.

Lemma fetch_fails endpoint options e :
  fails network endpoint options e ->
  exists ms, Api.fetch (network (Api.Request endpoint options)) = (Api.rejected e, false, ms).
Proof.
  intros (ms & Hlat & Hms & Hsettles). exists ms.
  unfold Api.fetch. rewrite Hlat, Hsettles.
  now apply N.ltb_lt in Hms as ->.
Qed.

Lemma fetch_times_out endpoint options :
  times_out network endpoint options ->
  Api.fetch (network (Api.Request endpoint options)) =
  (Api.rejected Api.AbortError, true, Api.TIMEOUT_MS).
Proof.
  intros Hslow. unfold Api.fetch.
  destruct (Api.latency _) as [ ms | ] eqn:Hlat; [ | reflexivity ].
  specialize (Hslow ms Hlat).
  now apply N.ltb_ge in Hslow as ->.
Qed.

Lemma apiFetch_unfold endpoint options s a t :
  Api.fetch (network (Api.Request endpoint options)) = (s, a, t) ->
  Api.apiFetch network endpoint options =
  Api.Run (Js.try_catch (Api.try_block s)
             (fun error => Returns (Api.envelope_failure (Api.catch_errorMsg error))))
          (match Api.try_block s with
           | Returns _ => []
           | Throws error => [Api.toast_error (Api.catch_errorMsg error)]
           | Pending => []
           end)
          a (Api.time_taken s t).
Proof. intros H. unfold Api.apiFetch. now rewrite H. Qed.

(** The inner [try] finds the structured field, or keeps the default; it
    stays pending exactly when the body does. *)
Lemma parsed_errorMessage_field r :
  Api.parsed_errorMessage r =
  match Api.json r with
  | Pending => Pending
  | _ => Returns (match structured_field r with
                  | Some field => field
                  | None => str "An unexpected error occurred"
                  end)
  end.
Proof.
  unfold Api.parsed_errorMessage, structured_field.
  destruct (Api.json r) as [ [ | | b | n | s | elems | props ] | e | ]; simpl; try reflexivity.
  unfold or.
  destruct (truthy (lookup_prop "detail" props)) eqn:Hdetail; simpl.
  - now rewrite Hdetail.
  - destruct (truthy (lookup_prop "message" props)) eqn:Hmessage; simpl; now rewrite ?Hmessage.
Qed.

(** The [switch] agrees with the table of dedicated wordings. *)
Lemma status_errorMessage_table status errorMessage :
  Api.status_errorMessage status errorMessage =
  match dedicated status dedicated_statuses with
  | Some wording => Returns (str wording)
  | None => obind (to_string errorMessage) (fun text => Returns (str ("Error: " +:+ text)))
  end.
Proof.
  unfold Api.status_errorMessage. simpl.
  destruct status as [ | p ]; [ reflexivity | ].
  repeat (destruct p as [ p | p | ]; try reflexivity).
Qed.

(** From the [switch] on, the handling of a failed response ends in a
    [throw]. *)
Lemma failed_response_throws status m :
  exists e,
    obind (Api.status_errorMessage status m) (fun errorMessage =>
    obind (to_string errorMessage) (fun message =>
    Throws (Error "Error" message))) = @Throws value e.
Proof.
  rewrite status_errorMessage_table.
  destruct (dedicated status dedicated_statuses) as [ wording | ]; [ simpl; eauto | ].
  unfold to_string at 1. destruct (to_text m) as [ text | ]; simpl; eauto.
Qed.

(** The [try] block is left waiting exactly by a body that never arrives. *)
Lemma try_block_pending s :
  Api.try_block s = Pending <-> exists r, s = Api.fulfilled r /\ Api.json r = Pending.
Proof.
  destruct s as [ r | e ]; unfold Api.try_block.
  - rewrite parsed_errorMessage_field. split.
    + intros Hwait. exists r. split; [ reflexivity | ].
      destruct (Api.json r) as [ body | e | ] eqn:Hjson; [ exfalso | exfalso | reflexivity ];
        destruct (negb (Api.ok r)); cbn [obind] in Hwait; try discriminate;
        match type of Hwait with
        | obind (Api.status_errorMessage ?status ?m) _ = _ =>
            destruct (failed_response_throws status m) as [e' He']
        end; congruence.
    + intros (r' & [= <-] & ->). now destruct (negb (Api.ok r)).
  - split; [ discriminate | ]. intros (r & Habs & _). discriminate.
Qed.

Lemma try_block_returns s envelope :
  Api.try_block s = Returns envelope ->
  exists data, envelope = Api.envelope_success data.
Proof.
  destruct s as [r | e]; unfold Api.try_block; [ | discriminate ].
  destruct (negb (Api.ok r)).
  - destruct (Api.parsed_errorMessage r) as [ m | e | ]; cbn [obind]; try discriminate.
    destruct (failed_response_throws (Api.status r) m) as [e' He']. congruence.
  - destruct (Api.json r) as [data | e | ]; simpl; try discriminate.
    intros [= <-]. now exists data.
Qed.

(** What [apiFetch] settles with, read off the settled [fetch]. *)
Lemma apiFetch_result endpoint options :
  Api.result (Api.apiFetch network endpoint options) =
  match Api.try_block (fst (fst (Api.fetch (network (Api.Request endpoint options))))) with
  | Returns envelope => Returns envelope
  | Throws error => Returns (Api.envelope_failure (Api.catch_errorMsg error))
  | Pending => Pending
  end.
Proof.
  unfold Api.apiFetch.
  destruct (Api.fetch (network (Api.Request endpoint options))) as [[s a] t]; simpl.
  now destruct (Api.try_block s).
Qed.

(** A call is left waiting exactly when a response came in time and its body
    never arrives. *)
Lemma apiFetch_pending endpoint options :
  Api.result (Api.apiFetch network endpoint options) = Pending <->
  stalls network endpoint options.
Proof.
  rewrite apiFetch_result. split.
  - intros Hwait.
    assert (Hblock : Api.try_block
                       (fst (fst (Api.fetch (network (Api.Request endpoint options))))) = Pending)
      by (destruct (Api.try_block _); [ discriminate | discriminate | reflexivity ]).
    apply try_block_pending in Hblock as (r & Hs & Hjson).
    exists r. split; [ | exact Hjson ].
    destruct (fetch_cases endpoint options) as [[_ Hfetch] | (ms & Hlat & Hms & Hfetch)];
      rewrite Hfetch in Hs; simpl in Hs; [ discriminate | ].
    exists ms. auto.
  - intros (r & Hresponds & Hjson).
    destruct (fetch_responds _ _ _ Hresponds) as [ms Hfetch]. rewrite Hfetch. simpl fst.
    now rewrite (proj2 (try_block_pending (Api.fulfilled r))) by eauto.
Qed.

Lemma apiFetch_never_rejects endpoint options :
  never_rejects (Api.apiFetch network endpoint options).
Proof.
  unfold never_rejects, resolves_to_envelope. rewrite apiFetch_result.
  destruct (Api.try_block _) as [envelope | error | ] eqn:Hattempt.
  - right. exists envelope. split; [ reflexivity | left ].
    now apply try_block_returns in Hattempt.
  - right. eexists. split; [ reflexivity | right ]. eauto.
  - now left.
Qed.

Lemma with_toasts_result loading celebrate r :
  never_rejects r ->
  Api.result (Api.with_toasts loading celebrate r) = Api.result r.
Proof.
  unfold Api.with_toasts. cbv zeta.
  intros [Hwait | (envelope & Hres & Hshape)].
  - now rewrite Hwait.
  - rewrite Hres. destruct celebrate; [ | reflexivity ].
    destruct Hshape as [[data ->] | [msg ->]]; reflexivity.
Qed.

Lemma with_toasts_never_rejects loading celebrate r :
  never_rejects r -> never_rejects (Api.with_toasts loading celebrate r).
Proof.
  intros H. unfold never_rejects, resolves_to_envelope.
  now rewrite (with_toasts_result _ _ _ H).
Qed.

Lemma run_of_never_rejects c : never_rejects (App.run_of network c).
Proof.
  destruct c; simpl;
    unfold Api.getAgentStatus, Api.getAgentCost, Api.sendSimpleChat, Api.sendQuery;
    try apply with_toasts_never_rejects; apply apiFetch_never_rejects.
Qed.

(** The three ways a call of the component can end. *)
Lemma run_of_cases c :
  (exists data, Api.result (App.run_of network c) = Returns (Api.envelope_success data)) \/
  (exists errorMsg, Api.result (App.run_of network c) = Returns (Api.envelope_failure errorMsg)) \/
  Api.result (App.run_of network c) = Pending.
Proof.
  destruct (run_of_never_rejects c) as [Hwait | (envelope & Hres & [[data ->] | [msg ->]])];
    eauto.
Qed.

(** C4 (amended). Every gateway call that settles resolves to an envelope,
    [{success: true, data}] or [{success: false, error}], and never throws:
    whatever the endpoint, the method and the body, and however the network
    answers, [apiFetch] and each method of the [api] object never reject. A
    call fails to settle in exactly one case: a response arrived before the
    timer fired, which cleared the timer, and the body of that response never
    arrives in full. Such a call stays pending: no envelope is returned. *)
Theorem gateway_resolves_to_envelope :
  (forall endpoint options,
      (stalls network endpoint options /\
       Api.result (Api.apiFetch network endpoint options) = Pending) \/
      (~ stalls network endpoint options /\
       resolves_to_envelope (Api.apiFetch network endpoint options))) /\
  (forall loading celebrate endpoint options,
      Api.result (Api.with_toasts loading celebrate (Api.apiFetch network endpoint options)) =
      Api.result (Api.apiFetch network endpoint options)) /\
  (forall agentId messages, never_rejects (Api.sendChat network agentId messages)) /\
  (forall c, never_rejects (App.run_of network c)).
Proof.
  split; [ | split; [ | split ] ].
  - intros endpoint options.
    destruct (apiFetch_never_rejects endpoint options) as [Hwait | Henvelope].
    + left. split; [ now apply apiFetch_pending | exact Hwait ].
    + right. split; [ | exact Henvelope ].
      intros Hstalls. apply apiFetch_pending in Hstalls.
      destruct Henvelope as (envelope & Hres & _). congruence.
  - intros. apply with_toasts_result, apiFetch_never_rejects.
  - intros. apply with_toasts_never_rejects, apiFetch_never_rejects.
  - apply run_of_never_rejects.
Qed.

(** The error a failed response is turned into, once its body has been read
    or has failed to parse. *)
Lemma try_block_failed_response r :
  Api.ok r = false ->
  Api.json r <> Pending ->
  exists name,
    String.eqb name "AbortError" = false /\
    Api.try_block (Api.fulfilled r) = Throws (Error name (described_message r)).
Proof.
  intros Hok Hread. unfold Api.try_block. rewrite Hok. cbn [negb].
  rewrite parsed_errorMessage_field.
  assert (Hparsed : match Api.json r with
                    | Pending => Pending
                    | _ => Returns (match structured_field r with
                                    | Some field => field
                                    | None => str "An unexpected error occurred"
                                    end)
                    end =
                    Returns (match structured_field r with
                             | Some field => field
                             | None => str "An unexpected error occurred"
                             end))
    by (destruct (Api.json r); [ reflexivity | reflexivity | contradiction ]).
  rewrite Hparsed. cbn [obind]. rewrite status_errorMessage_table.
  unfold described_message.
  destruct (dedicated (Api.status r) dedicated_statuses) as [ wording | ].
  - exists "Error". split; reflexivity.
  - destruct (structured_field r) as [ field | ].
    + unfold to_string at 1. destruct (to_text field) as [ text | ].
      * exists "Error". split; reflexivity.
      * exists "TypeError". split; reflexivity.
    + exists "Error". split; reflexivity.
Qed.

Lemma described_message_not_timeout r : described_message r <> timeout_message.
Proof.
  unfold described_message, dedicated, dedicated_statuses.
  repeat (destruct (N.eqb _ _); [ discriminate | ]).
  destruct (structured_field r) as [ field | ]; [ | discriminate ].
  destruct (to_text field); discriminate.
Qed.

(** C5 (amended). A call whose transport attempt has not settled when the
    timeout of 10,000 ms elapses is aborted at that moment and yields the
    failure envelope with the timeout message. That message is told apart
    from the others: a transport attempt that fails before the timeout is not
    aborted and is reported with the unreachable-backend message when the
    error carries one of the two markers of a connection failure, and with the
    error's own message otherwise (the gateway tells an abort by the error's
    name, [AbortError], alone); a failed HTTP response is never reported with
    the timeout message. The timer is cleared once a response has arrived:
    such a call is never aborted, however long its body takes. *)
Theorem timeout_is_classified endpoint options :
  times_out network endpoint options ->
  (Api.result (Api.apiFetch network endpoint options) =
     Returns (Api.envelope_failure timeout_message) /\
   Api.aborted (Api.apiFetch network endpoint options) = true /\
   Api.elapsed (Api.apiFetch network endpoint options) = Some Api.TIMEOUT_MS) /\
  timeout_message <> unreachable_message /\
  (forall endpoint' options' e,
      fails network endpoint' options' e ->
      Api.aborted (Api.apiFetch network endpoint' options') = false /\
      (error_name e <> "AbortError" ->
       Api.result (Api.apiFetch network endpoint' options') =
       Returns (Api.envelope_failure (rejection_message e))) /\
      (error_name e = "AbortError" ->
       Api.result (Api.apiFetch network endpoint' options') =
       Returns (Api.envelope_failure timeout_message))) /\
  (forall endpoint' options' r,
      responds network endpoint' options' r ->
      Api.aborted (Api.apiFetch network endpoint' options') = false /\
      (Api.ok r = false ->
       error_of (Api.apiFetch network endpoint' options') <> str timeout_message)).
Proof.
  intros Hslow. split; [ | split; [ | split ] ].
  - unfold Api.apiFetch. rewrite (fetch_times_out _ _ Hslow). simpl. auto.
  - discriminate.
  - intros endpoint' options' e Hfails.
    destruct (fetch_fails _ _ _ Hfails) as [ms Hfetch]. split.
    + unfold Api.apiFetch. now rewrite Hfetch.
    + rewrite apiFetch_result, Hfetch. simpl.
      unfold Api.catch_errorMsg, rejection_message. split.
      * intros Hname. apply String.eqb_neq in Hname. now rewrite Hname.
      * intros Hname. apply String.eqb_eq in Hname. now rewrite Hname.
  - intros endpoint' options' r Hresponds.
    destruct (fetch_responds _ _ _ Hresponds) as [ms Hfetch]. split.
    + unfold Api.apiFetch. now rewrite Hfetch.
    + intros Hok. unfold error_of. rewrite apiFetch_result, Hfetch. simpl fst.
      destruct (Api.json r) as [ body | e | ] eqn:Hjson.
      3: { rewrite (proj2 (try_block_pending (Api.fulfilled r))) by eauto. discriminate. }
      all: destruct (try_block_failed_response r Hok) as (name & Hname & ->);
        [ congruence | ];
        unfold Api.catch_errorMsg; simpl; rewrite Hname;
        (destruct (_ || _); [ discriminate | ]);
        intros [= Heq]; now apply (described_message_not_timeout r).
Qed.

(** C6 (amended). For a response whose status is not 2xx and whose body has
    been read or has failed to parse, the statuses 404, 429, 500, 502 and 503
    yield their dedicated wording whatever the body says; every other status
    yields the text [Error: ] followed by the body's [detail] when that is
    truthy, else by its [message] when that is truthy, else by the default
    text. A field that cannot be converted to a string (an object with a
    [toString] property of its own, or an array that holds one) yields the
    message of the conversion's error instead. (A message that contains one
    of the two markers of a network failure is left out of the statement.) *)
Theorem failed_response_message endpoint options r :
  responds network endpoint options r ->
  Api.ok r = false ->
  Api.json r <> Pending ->
  includes (described_message r) "Failed to fetch" = false ->
  includes (described_message r) "NetworkError" = false ->
  Api.result (Api.apiFetch network endpoint options) =
  Returns (Api.envelope_failure (described_message r)).
Proof.
  intros Hresponds Hok Hread Hfetch_marker Hnetwork_marker.
  destruct (fetch_responds _ _ _ Hresponds) as [ms Hfetch].
  rewrite apiFetch_result, Hfetch. simpl fst.
  destruct (try_block_failed_response r Hok Hread) as (name & Hname & ->).
  unfold Api.catch_errorMsg. simpl.
  now rewrite Hname, Hfetch_marker, Hnetwork_marker.
Qed.

End GatewayFacts.

Lemma timeout_is_classified_witness :
  times_out Examples.sluggish "/health" Api.no_options /\
  Api.result (Api.apiFetch Examples.sluggish "/health" Api.no_options) =
  Returns (Api.envelope_failure timeout_message).
Proof.
  assert (Hslow : times_out Examples.sluggish "/health" Api.no_options).
  { intros ms [= <-]. vm_compute. discriminate. }
  split; [ exact Hslow | ].
  exact (proj1 (proj1 (timeout_is_classified Examples.sluggish "/health" Api.no_options Hslow))).
Defined.

(** C4, as stated, fails: a call whose response head arrives after 50 ms and
    whose body never arrives in full returns no envelope. Nothing is aborted,
    no toast is raised, and the wrappers and the component wait with it. *)
Lemma stalled_body_returns_no_envelope :
  Api.result (Api.apiFetch Examples.stalled_body "/api/agents/coder/circuit" Api.no_options) =
  Pending /\
  Api.aborted (Api.apiFetch Examples.stalled_body "/api/agents/coder/circuit" Api.no_options) =
  false /\
  Api.toasts (Api.apiFetch Examples.stalled_body "/api/agents/coder/circuit" Api.no_options) =
  [] /\
  Api.elapsed (Api.apiFetch Examples.stalled_body "/api/agents/coder/circuit" Api.no_options) =
  None /\
  Api.sendSimpleChat Examples.stalled_body "hello" "coder" =
  Api.Run Pending [Api.toast_loading "Sending message..."] false None.
Proof. by_evaluation. Qed.

(** C5, as stated, fails: a call whose response head arrives after 50 ms and
    whose body takes 30 seconds resolves after 30,050 ms, beyond the timeout,
    with a success envelope, and nothing is aborted. *)
Lemma slow_body_is_not_timed_out :
  Api.elapsed (Api.apiFetch Examples.slow_body "/api/agents/coder/circuit" Api.no_options) =
  Some 30050%N /\
  (Api.TIMEOUT_MS < 30050)%N /\
  Api.result (Api.apiFetch Examples.slow_body "/api/agents/coder/circuit" Api.no_options) =
  Returns (Api.envelope_success (object [("status", str "closed")])) /\
  Api.aborted (Api.apiFetch Examples.slow_body "/api/agents/coder/circuit" Api.no_options) = false.
Proof. by_evaluation. Qed.

Lemma failed_response_message_witness :
  Api.result (Api.apiFetch Examples.bad_request "/api/chat" Api.no_options) =
  Returns (Api.envelope_failure "Error: query must not be empty").
Proof.
  apply (failed_response_message Examples.bad_request "/api/chat" Api.no_options
           (Api.Response 400 (Returns (object [("detail", str "query must not be empty")])) 5)).
  - exists 20%N. repeat split; reflexivity.
  - reflexivity.
  - discriminate.
  - reflexivity.
  - reflexivity.
Defined.

(** C6, as stated, fails: a 404 whose body carries a [detail] is reported
    with the dedicated wording, not with the detail; and a 504, a 5xx status,
    gets the generic wrapper, not the server-error wording. *)
Lemma status_wording_overrides_detail :
  structured_field
    (Api.Response 404 (Returns (object [("detail", str "Agent coder is not registered")])) 5) =
  Some (str "Agent coder is not registered") /\
  error_of (Api.apiFetch Examples.unknown_agent "/api/agents/coder/cost" Api.no_options) =
  str "Resource not found (404)" /\
  error_of (Api.apiFetch Examples.gateway_timeout "/api/agents/coder/cost" Api.no_options) =
  str "Error: An unexpected error occurred".
Proof. by_evaluation. Qed.

(** A backend that never answers is cut off when the timer fires, and a
    refused connection is reported as such at once. *)
Example silent_backend_times_out :
  Api.apiFetch Examples.silent "/health" Api.no_options =
  Api.Run (Returns (Api.envelope_failure timeout_message))
          [Api.toast_error timeout_message] true (Some Api.TIMEOUT_MS) /\
  Api.apiFetch Examples.refused "/health" Api.no_options =
  Api.Run (Returns (Api.envelope_failure unreachable_message))
          [Api.toast_error unreachable_message] false (Some 3%N).
Proof. by_evaluation. Qed.

(** Why the property of failed responses leaves the two markers out: a failed response
    whose detail happens to contain one of them is reported as a connection
    failure. *)
Example marker_in_detail_reads_as_unreachable :
  error_of
    (Api.apiFetch
       (fun _ => Examples.answers 400
                   (Returns (object [("detail", str "Failed to fetch the user profile")])))
       "/api/chat" Api.no_options) =
  str unreachable_message.
Proof. by_evaluation. Qed.

(** A [detail] that is an object is reported by the fixed text of its
    conversion; one with a [toString] property of its own, alone or inside an
    array, makes the conversion throw, and the error's message is reported;
    under a status with a dedicated wording the detail is not converted at
    all. *)
Example details_that_are_not_text :
  error_of
    (Api.apiFetch
       (fun _ => Examples.answers 400 (Returns (object [("detail", object [("loc", str "body")])])))
       "/api/chat" Api.no_options) =
  str "Error: [object Object]" /\
  error_of
    (Api.apiFetch
       (fun _ => Examples.answers 400
                   (Returns (object [("detail", object [("toString", num (Number true "1"))])])))
       "/api/chat" Api.no_options) =
  str "Cannot convert object to primitive value" /\
  error_of
    (Api.apiFetch
       (fun _ => Examples.answers 422
                   (Returns (object [("detail",
                                      array [str "a"; null;
                                             object [("toString", null)]])])))
       "/api/chat" Api.no_options) =
  str "Cannot convert object to primitive value" /\
  error_of
    (Api.apiFetch
       (fun _ => Examples.answers 400
                   (Returns (object [("detail", array [str "a"; null; array [str "b"; str "c"]])])))
       "/api/chat" Api.no_options) =
  str "Error: a,,b,c" /\
  error_of
    (Api.apiFetch
       (fun _ => Examples.answers 429
                   (Returns (object [("detail", object [("toString", num (Number true "1"))])])))
       "/api/chat" Api.no_options) =
  str "Rate limit exceeded. Please wait a moment.".
Proof. by_evaluation. Qed.

(* ================================================================== *)
(** * Properties of the status aggregator *)
(* ================================================================== *)

Section AggregatorFacts.

Variable ids : list string.
Variable network : Api.request -> Api.transport.

(** One round of the loop. When the pair ends, it is requested and awaited,
    the store is untouched, and the locals gain the identity's snapshot
    exactly when it is incorporated. When it does not, the round stops at its
    [await]. *)
Lemma refresh_round_spec id locals st :
  if pair_ends network id then
    exists log,
      Forall (fun e => is_console e = true) log /\
      App.refresh_round network id locals st =
      (pair_requests id ++ log, st,
       Returns (if incorporated network id
                then (<[id := snapshot network id]> (fst locals), S (snd locals))
                else locals))
  else
    App.refresh_round network id locals st = (pair_issues id, st, Pending).
Proof.
  destruct (run_of_cases network (App.getAgentStatus id)) as [[d1 H1] | [[m1 H1] | H1]];
    destruct (run_of_cases network (App.getAgentCost id)) as [[d2 H2] | [[m2 H2] | H2]];
    simpl in H1, H2;
    unfold pair_ends, ends, incorporated, pair_succeeded, pair_readable, snapshot,
      succeeded, data_of, convertible;
    unfold App.refresh_round, App.try_catch, App.await_all, App.resume, App.promise_all,
      App.bind, App.emit, App.lift, App.ret;
    simpl App.run_of; rewrite H1, H2;
    try reflexivity;
    try (exists []; split; [ constructor | reflexivity ]).
  destruct d1 as [ | | b | n | s | elems | props ], d2;
    try (eexists; (split; [ | reflexivity ]); repeat constructor).
  all: cbn; unfold App.parseFloat, to_string;
    destruct (to_text (lookup_prop "budget_limit_usd" props));
    eexists; (split; [ | reflexivity ]); repeat constructor.
Qed.


Lemma filter_none {A} (f : A -> bool) l :
  Forall (fun x => f x = false) l -> List.filter f l = [].
Proof.
  induction 1 as [ | x l Hx _ IH ]; simpl; [ reflexivity | now rewrite Hx ].
Qed.

Lemma round_requests id log :
  Forall (fun e => is_console e = true) log ->
  List.filter is_request (pair_requests id ++ log) = pair_requests id.
Proof.
  intros Hlog. rewrite List.filter_app, (filter_none is_request log).
  - now rewrite app_nil_r.
  - eapply Forall_impl; [ exact Hlog | ]. now intros [].
Qed.

(** The loop: the pairs are requested one identity after the other and the
    store is untouched. When every pair ends, the locals end as the overlay
    and the count of the incorporated identities; otherwise the loop stops at
    the first pair that does not end. *)
Lemma for_of_rounds l newAgentData successCount st :
  exists rounds,
    List.filter is_request rounds = requested network l /\
    Forall (fun e => request_or_console e = true) rounds /\
    App.for_of l (newAgentData, successCount) (App.refresh_round network) st =
    (rounds, st,
     if forallb (pair_ends network) l
     then Returns (overlay network l newAgentData,
                   successCount + length (List.filter (incorporated network) l))
     else Pending).
Proof.
  revert newAgentData successCount.
  induction l as [ | id l IH ]; intros newAgentData successCount.
  - exists []. repeat split; [ constructor | ]. simpl. unfold App.ret.
    now rewrite Nat.add_0_r.
  - pose proof (refresh_round_spec id (newAgentData, successCount) st) as Hround.
    simpl requested. simpl forallb.
    destruct (pair_ends network id).
    + destruct Hround as (log & Hlog & Hround).
      destruct (IH (if incorporated network id
                    then <[id := snapshot network id]> newAgentData else newAgentData)
                   (if incorporated network id then S successCount else successCount))
        as (rounds & Hreq & Hall & Hloop).
      exists ((pair_requests id ++ log) ++ rounds). split; [ | split ].
      * rewrite List.filter_app, Hreq, (round_requests id log Hlog). reflexivity.
      * apply Forall_app. split; [ apply Forall_app; split | exact Hall ].
        -- repeat constructor.
        -- eapply Forall_impl; [ exact Hlog | ]. intros e He. unfold request_or_console.
           rewrite He. apply orb_true_r.
      * simpl App.for_of. unfold App.bind. rewrite Hround.
        unfold overlay. simpl fold_left. simpl List.filter. cbn [andb].
        destruct (incorporated network id); simpl fst; simpl snd; rewrite Hloop;
          unfold overlay; simpl length;
          (destruct (forallb (pair_ends network) l); [ do 3 f_equal; lia | reflexivity ]).
    + exists (pair_issues id). split; [ reflexivity | split ].
      * repeat constructor.
      * simpl App.for_of. unfold App.bind. now rewrite Hround.
Qed.

Lemma refreshAgentData_spec closure st :
  exists rounds,
    List.filter is_request rounds = requested network ids /\
    Forall (fun e => request_or_console e = true) rounds /\
    App.refreshAgentData ids network closure st =
    (App.entered_refreshAgentData :: refresh_events ids network closure rounds,
     refresh_store ids network closure st,
     refresh_outcome ids network).
Proof.
  unfold App.refreshAgentData, refresh_events, refresh_store, refresh_outcome, completes,
    loading_flag, publication, refreshed, waiting.
  destruct (Nat.eqb (size (App.agents closure)) 0);
    unfold App.bind, App.emit, App.set_loadingAgents, App.set_backendOnline,
      App.overlay_agents, App.update, App.ret;
    match goal with
    | |- context [App.for_of ids _ _ ?s] =>
        destruct (for_of_rounds ids ∅ 0 s) as (rounds & Hreq & Hall & Hloop);
        exists rounds; split; [ exact Hreq | split; [ exact Hall | ] ];
        rewrite Hloop
    end;
    (destruct (forallb (pair_ends network) ids);
     [ rewrite Nat.add_0_l; fold (fresh_count ids network);
       destruct (Nat.ltb 0 (fresh_count ids network)); cbn; rewrite ?app_nil_r; reflexivity
     | destruct st; cbn; rewrite ?app_nil_r; reflexivity ]).
Qed.

Lemma refreshAgentData_store closure st :
  store_of (App.refreshAgentData ids network closure st) =
  refresh_store ids network closure st.
Proof.
  destruct (refreshAgentData_spec closure st) as (rounds & _ & _ & Hrun).
  now rewrite Hrun.
Qed.

(** When every pair ends, the requests are those of all the identities. *)
Lemma requested_all l :
  forallb (pair_ends network) l = true -> requested network l = flat_map pair_requests l.
Proof.
  induction l as [ | id l IH ]; [ reflexivity | ].
  simpl. intros Hends. apply andb_prop in Hends as [-> Hrest]. now rewrite (IH Hrest).
Qed.

(** Otherwise they are those of the identities before the first pair that
    does not end, and the issue of that pair. *)
Lemma requested_some l :
  forallb (pair_ends network) l = false ->
  exists served id rest,
    l = served ++ id :: rest /\
    forallb (pair_ends network) served = true /\
    pair_ends network id = false /\
    requested network l = flat_map pair_requests served ++ pair_issues id.
Proof.
  induction l as [ | id l IH ]; [ discriminate | ].
  simpl. destruct (pair_ends network id) eqn:Hends.
  - intros Hrest. destruct (IH Hrest) as (served & id' & rest & -> & Hserved & Hid' & ->).
    exists (id :: served), id', rest. simpl. rewrite Hends. auto using app_assoc.
  - intros _. exists [], id, l. auto.
Qed.

(** The overlay holds the snapshot of every incorporated identity of the
    list, and nothing else that was not in the locals before. *)
Lemma overlay_lookup l (newAgentData : gmap string App.agent) id :
  overlay network l newAgentData !! id =
  if existsb (String.eqb id) l && incorporated network id
  then Some (snapshot network id)
  else newAgentData !! id.
Proof.
  revert newAgentData. induction l as [ | a l IH ]; intros newAgentData; [ reflexivity | ].
  unfold overlay in *. simpl fold_left. rewrite IH. simpl existsb.
  destruct (String.eqb_spec id a) as [ <- | Hne ].
  - destruct (incorporated network id) eqn:Hinc.
    + rewrite lookup_insert_eq. now destruct (existsb _ l).
    + now rewrite !andb_false_r.
  - simpl orb. destruct (existsb (String.eqb id) l && incorporated network id); [ reflexivity | ].
    destruct (incorporated network a); [ | reflexivity ].
    now rewrite lookup_insert_ne by congruence.
Qed.

Lemma existsb_eqb_In id l : existsb (String.eqb id) l = true <-> In id l.
Proof.
  rewrite existsb_exists. split.
  - intros (x & Hx & Heq). now apply String.eqb_eq in Heq as ->.
  - intros Hin. exists id. split; [ exact Hin | apply String.eqb_refl ].
Qed.

Lemma fresh_count_pos id :
  In id ids -> incorporated network id = true -> Nat.ltb 0 (fresh_count ids network) = true.
Proof.
  intros Hin Hinc. apply Nat.ltb_lt. unfold fresh_count.
  assert (Hmem : In id (List.filter (incorporated network) ids)) by now apply filter_In.
  destruct (List.filter (incorporated network) ids); [ destruct Hmem | simpl; lia ].
Qed.

(** The entry of an identity after a refresh that ran to its end. *)
Lemma refreshed_fresh st id :
  In id ids -> incorporated network id = true ->
  App.agents (refreshed ids network st) !! id = Some (snapshot network id).
Proof.
  intros Hin Hinc. unfold refreshed. simpl App.agents.
  rewrite (fresh_count_pos id Hin Hinc).
  apply lookup_union_Some_l. rewrite overlay_lookup, Hinc.
  now apply existsb_eqb_In in Hin as ->.
Qed.

Lemma refreshed_stale st id :
  ~ (In id ids /\ incorporated network id = true) ->
  App.agents (refreshed ids network st) !! id = App.agents st !! id.
Proof.
  intros Hnot. unfold refreshed. simpl App.agents.
  destruct (Nat.ltb 0 (fresh_count ids network)); [ | reflexivity ].
  apply lookup_union_r. rewrite overlay_lookup.
  destruct (existsb (String.eqb id) ids) eqn:Hin; [ | reflexivity ].
  destruct (incorporated network id) eqn:Hinc; [ | reflexivity ].
  exfalso. apply Hnot. split; [ now apply existsb_eqb_In | reflexivity ].
Qed.

(** The entry of an identity after a refresh, ended or not. *)
Lemma refresh_store_fresh closure st id :
  completes ids network = true -> In id ids -> incorporated network id = true ->
  App.agents (refresh_store ids network closure st) !! id = Some (snapshot network id).
Proof.
  intros Hends Hin Hinc. unfold refresh_store. rewrite Hends. now apply refreshed_fresh.
Qed.

Lemma refresh_store_stale closure st id :
  ~ (In id ids /\ incorporated network id = true) ->
  App.agents (refresh_store ids network closure st) !! id = App.agents st !! id.
Proof.
  intros Hnot. unfold refresh_store.
  destruct (completes ids network); [ now apply refreshed_stale | reflexivity ].
Qed.

Lemma refresh_store_waiting closure st :
  completes ids network = false ->
  refresh_store ids network closure st = waiting closure st.
Proof. intros Hends. unfold refresh_store. now rewrite Hends. Qed.

Lemma filter_split_length {A} (f : A -> bool) l :
  length (List.filter f l) + length (List.filter (fun x => negb (f x)) l) = length l.
Proof.
  induction l as [ | x l IH ]; simpl; [ reflexivity | ].
  destruct (f x); simpl; lia.
Qed.

(** C1 (amended). An identity is incorporated when both of its calls
    returned a success envelope and the entry can be built from them: the data
    of both is neither [null] nor [undefined], and the budget limit can be
    converted to a string. After a refresh over N tracked identities that ran
    to its end (every pair of calls ended) and in which exactly K identities
    are incorporated, the map holds the snapshot built in this cycle for each
    of those K identities, and for the N - K others, as for every identity
    that is not tracked, the entry it held before: an identity is
    incorporated only if both of its calls succeeded, a partial pair leaves
    the entry as it was, and the fresh entries are overlaid on the map. A
    refresh in which a pair never ends leaves the whole map as it was. *)
Theorem refresh_overlays_incorporated_pairs closure st :
  let after := store_of (App.refreshAgentData ids network closure st) in
  let fresh := List.filter (incorporated network) ids in
  let stale := List.filter (fun id => negb (incorporated network id)) ids in
  length fresh + length stale = length ids /\
  (completes ids network = true ->
   Forall (fun id => pair_succeeded network id = true /\
                     App.agents after !! id = Some (snapshot network id)) fresh) /\
  Forall (fun id => App.agents after !! id = App.agents st !! id) stale /\
  (forall id, pair_succeeded network id = false ->
              App.agents after !! id = App.agents st !! id) /\
  (forall id, ~ In id ids -> App.agents after !! id = App.agents st !! id) /\
  (completes ids network = false -> App.agents after = App.agents st).
Proof.
  cbv zeta. rewrite refreshAgentData_store.
  split; [ apply filter_split_length | ].
  split; [ | split; [ | split; [ | split ] ] ].
  - intros Hends. apply List.Forall_forall. intros id Hid.
    apply filter_In in Hid as [Hin Hinc]. split.
    + unfold incorporated in Hinc. now apply andb_prop in Hinc.
    + now apply refresh_store_fresh.
  - apply List.Forall_forall. intros id Hid. apply filter_In in Hid as [Hin Hinc].
    apply refresh_store_stale. intros [_ Hyes]. rewrite Hyes in Hinc. discriminate.
  - intros id Hfail. apply refresh_store_stale. intros [_ Hyes].
    unfold incorporated in Hyes. rewrite Hfail in Hyes. discriminate.
  - intros id Hout. apply refresh_store_stale. now intros [Hin _].
  - intros Hends. now rewrite refresh_store_waiting.
Qed.

(** C2 (amended). After a refresh that ran to its end, [backendOnline] is
    true exactly when at least one tracked identity is incorporated: both of
    its calls returned a success envelope, the data of both can be read, and
    the budget limit can be converted to a string. It is false otherwise. A
    refresh in which a pair never ends leaves [backendOnline] as it was. *)
Theorem backendOnline_iff_some_pair_incorporated closure st :
  let after := store_of (App.refreshAgentData ids network closure st) in
  (completes ids network = true ->
   (App.backendOnline after = true <->
    1 <= length (List.filter (incorporated network) ids))) /\
  (completes ids network = true ->
   (App.backendOnline after = false <->
    length (List.filter (incorporated network) ids) = 0)) /\
  (completes ids network = false -> App.backendOnline after = App.backendOnline st).
Proof.
  cbv zeta. rewrite refreshAgentData_store. unfold refresh_store.
  split; [ | split ]; intros ->.
  - unfold refreshed. simpl App.backendOnline.
    unfold fresh_count. rewrite Nat.ltb_lt. lia.
  - unfold refreshed. simpl App.backendOnline.
    unfold fresh_count. rewrite Nat.ltb_ge. lia.
  - reflexivity.
Qed.

(** C3 (amended). Within one refresh the two calls of an identity's pair are
    issued together, and the identities are served one after the other: the
    next pair is issued only when the pair before it has settled. The
    snapshot and the verdict are published after the last pair has settled,
    and no request follows them. When a pair never settles, the pairs after
    it are never issued and nothing is published. *)
Theorem refresh_serves_pairs_in_turn closure st :
  let tr := trace_of (App.refreshAgentData ids network closure st) in
  (completes ids network = true ->
   List.filter is_request tr = flat_map pair_requests ids /\
   exists before,
     tr = before ++ publication ids network /\
     List.filter is_publication before = [] /\
     List.filter is_request (publication ids network) = []) /\
  (completes ids network = false ->
   exists served id rest,
     ids = served ++ id :: rest /\
     forallb (pair_ends network) served = true /\
     pair_ends network id = false /\
     List.filter is_request tr = flat_map pair_requests served ++ pair_issues id /\
     List.filter is_publication tr = []).
Proof.
  cbv zeta.
  destruct (refreshAgentData_spec closure st) as (rounds & Hreq & Hall & Hrun).
  rewrite Hrun. unfold trace_of. simpl fst. unfold refresh_events.
  assert (Hflag_req : List.filter is_request (loading_flag closure) = [])
    by (unfold loading_flag; now destruct (Nat.eqb _ _)).
  assert (Hflag_pub : List.filter is_publication (loading_flag closure) = [])
    by (unfold loading_flag; now destruct (Nat.eqb _ _)).
  assert (Hpub_req : List.filter is_request (publication ids network) = [])
    by (unfold publication; now destruct (Nat.ltb _ _)).
  assert (Hrounds_pub : List.filter is_publication rounds = []).
  { apply filter_none. eapply Forall_impl; [ exact Hall | ]. now intros []. }
  split; intros Hends; rewrite Hends.
  - rewrite (requested_all ids Hends) in Hreq. split.
    + change (App.entered_refreshAgentData :: ?l) with ([App.entered_refreshAgentData] ++ l).
      rewrite !List.filter_app, Hflag_req, Hpub_req, Hreq. simpl. now rewrite app_nil_r.
    + exists (App.entered_refreshAgentData :: loading_flag closure ++ rounds).
      split; [ | split ].
      * simpl. now rewrite <- app_assoc.
      * change (App.entered_refreshAgentData :: ?l) with ([App.entered_refreshAgentData] ++ l).
        now rewrite !List.filter_app, Hflag_pub, Hrounds_pub.
      * exact Hpub_req.
  - destruct (requested_some ids Hends) as (served & id & rest & Hids & Hserved & Hid & Hlist).
    exists served, id, rest. rewrite Hlist in Hreq.
    split; [ exact Hids | split; [ exact Hserved | split; [ exact Hid | ] ] ].
    change (App.entered_refreshAgentData :: ?l) with ([App.entered_refreshAgentData] ++ l).
    rewrite !List.filter_app, Hflag_req, Hflag_pub, Hrounds_pub, Hreq. simpl.
    now rewrite app_nil_r.
Qed.

End AggregatorFacts.

(** C1, as stated, fails: with the researcher's circuit call answered by a
    success envelope whose data is [null], all three pairs succeed, yet the
    researcher keeps the entry of the earlier cycle. *)
Lemma succeeded_pair_with_null_data_is_not_incorporated :
  length (List.filter (pair_succeeded Examples.null_researcher) AGENT_IDS) = 3 /\
  App.agents (store_of (App.refreshAgentData AGENT_IDS Examples.null_researcher
                          Examples.later_render Examples.later_render))
    !! "researcher" = Some Examples.earlier_researcher /\
  length (List.filter (incorporated Examples.null_researcher) AGENT_IDS) = 2.
Proof. by_evaluation. Qed.

(** C2, as stated, fails: when every call is answered by a success envelope
    whose data is [null], all three pairs succeed and the verdict is false. *)
Lemma succeeded_pairs_with_null_data_go_offline :
  length (List.filter (pair_succeeded Examples.all_null) AGENT_IDS) = 3 /\
  App.backendOnline Examples.later_render = true /\
  App.backendOnline (store_of (App.refreshAgentData AGENT_IDS Examples.all_null
                                 Examples.later_render Examples.later_render)) = false.
Proof. by_evaluation. Qed.

(** C3, as stated, fails: the researcher's pair is issued after the
    coordinator's pair has settled, and the coder's after the researcher's. *)
Lemma pairs_are_not_fanned_out :
  List.filter is_request
    (trace_of (App.refreshAgentData AGENT_IDS Examples.healthy
                 Examples.later_render Examples.later_render)) =
  [ App.issued (App.getAgentStatus "coordinator");
    App.issued (App.getAgentCost "coordinator");
    App.settled [App.getAgentStatus "coordinator"; App.getAgentCost "coordinator"];
    App.issued (App.getAgentStatus "researcher");
    App.issued (App.getAgentCost "researcher");
    App.settled [App.getAgentStatus "researcher"; App.getAgentCost "researcher"];
    App.issued (App.getAgentStatus "coder");
    App.issued (App.getAgentCost "coder");
    App.settled [App.getAgentStatus "coder"; App.getAgentCost "coder"] ] /\
  fanned_out
    (trace_of (App.refreshAgentData AGENT_IDS Examples.healthy
                 Examples.later_render Examples.later_render)) = false.
Proof. by_evaluation. Qed.

(** The scenario of three agents in which the researcher's circuit call fails
    and its cost call succeeds: the researcher keeps its earlier entry, the
    coordinator and the coder are refreshed, and the verdict stays true. *)
Example partial_pair_scenario :
  let after := store_of (App.refreshAgentData AGENT_IDS Examples.researcher_circuit_down
                           Examples.later_render Examples.later_render) in
  succeeded (Api.getAgentCost Examples.researcher_circuit_down "researcher") = true /\
  succeeded (Api.getAgentStatus Examples.researcher_circuit_down "researcher") = false /\
  App.agents after !! "researcher" = Some Examples.earlier_researcher /\
  App.agents after !! "coordinator" =
    Some (App.Agent "coordinator" (str "closed") (App.parsed "10.00")
            (num (Number true "0.42"))) /\
  App.agents after !! "coder" =
    Some (App.Agent "coder" (str "closed") (App.parsed "10.00")
            (num (Number true "0.42"))) /\
  App.backendOnline after = true.
Proof. by_evaluation. Qed.

(** A budget limit that cannot be converted to a string makes [parseFloat]
    throw: the round's [catch] logs the error and the researcher, whose two
    calls succeeded with data that can be read, keeps its earlier entry. *)
Example unconvertible_budget_scenario :
  let run := App.refreshAgentData AGENT_IDS Examples.odd_researcher
               Examples.later_render Examples.later_render in
  pair_succeeded Examples.odd_researcher "researcher" = true /\
  data_of (Api.getAgentStatus Examples.odd_researcher "researcher") = Examples.odd_budget /\
  incorporated Examples.odd_researcher "researcher" = false /\
  List.filter is_console (trace_of run) =
  [App.console_error "Error processing data for researcher" not_primitive] /\
  App.agents (store_of run) !! "researcher" = Some Examples.earlier_researcher /\
  length (List.filter (incorporated Examples.odd_researcher) AGENT_IDS) = 2 /\
  App.backendOnline (store_of run) = true.
Proof. by_evaluation. Qed.

(** A refresh in which the body of the researcher's cost response never
    arrives: the coder's pair is never issued, nothing is published, and the
    refresh never ends. *)
Example stalled_refresh_scenario :
  let run := App.refreshAgentData AGENT_IDS Examples.researcher_cost_stalls
               Examples.later_render Examples.later_render in
  completes AGENT_IDS Examples.researcher_cost_stalls = false /\
  trace_of run =
  [ App.entered_refreshAgentData;
    App.issued (App.getAgentStatus "coordinator");
    App.issued (App.getAgentCost "coordinator");
    App.settled [App.getAgentStatus "coordinator"; App.getAgentCost "coordinator"];
    App.issued (App.getAgentStatus "researcher");
    App.issued (App.getAgentCost "researcher") ] /\
  store_of run = Examples.later_render /\
  outcome_of run = Pending.
Proof. by_evaluation. Qed.

(* ================================================================== *)
(** * Properties of the conversation dispatcher *)
(* ================================================================== *)

Section DispatcherFacts.

Variable ids : list string.
Variable network : Api.request -> Api.transport.

(** A send with text, by the way its chat call ends: not at all, with a
    success envelope whose data cannot be read, or with an envelope that is
    answered in the timeline and followed by a refresh. *)
Lemma handleSend_spec closure st :
  trim (App.input closure) <> "" ->
  if ends (chat_run network closure) then
    if malformed network closure then
      App.handleSend ids network closure st =
      (prologue closure ++ [App.setMessages critical_entry; App.setLoading false],
       idle (sending closure st critical_entry), Returns tt)
    else
      exists rounds,
        Forall (fun e => request_or_console e = true) rounds /\
        List.filter is_request rounds = requested network ids /\
        App.handleSend ids network closure st =
        (prologue closure ++
         App.setMessages (reply_entry network closure) ::
         App.entered_refreshAgentData ::
         refresh_events ids network closure rounds ++
         (if completes ids network then [App.setLoading false] else []),
         (if completes ids network
          then idle (refreshed ids network (sending closure st (reply_entry network closure)))
          else waiting closure (sending closure st (reply_entry network closure))),
         refresh_outcome ids network)
  else
    App.handleSend ids network closure st = (opening closure, asked closure st, Pending).
Proof.
  intros Htext. apply String.eqb_neq in Htext.
  pose proof (run_of_cases network (chat_call closure)) as Hcases.
  unfold ends, malformed, reply_entry, prologue, opening, asked, user_entry, chat_run,
    succeeded, data_of, error_text, error_of, error_entry.
  unfold chat_call in *.
  unfold App.handleSend. cbv zeta.
  change (truthy (str (trim (App.input closure))))
    with (negb (String.eqb (trim (App.input closure)) "")).
  rewrite Htext. cbn [negb].
  remember (App.refreshAgentData ids network closure) as refresh eqn:Hrefresh.
  unfold App.try_finally, App.try_catch, App.bind, App.emit, App.await, App.resume, App.lift,
    App.append_message, App.set_input, App.set_loading, App.update, App.ret.
  destruct (String.eqb (App.chatMode closure) "simple");
    (destruct Hcases as [[data Hres] | [[msg Hres] | Hres]]; rewrite Hres;
     [ destruct data | destruct (String.eqb msg "") eqn:Hmsg | ]);
    cbn; try (unfold or; cbn [truthy]; rewrite Hmsg; cbn); try reflexivity;
    match goal with
    | |- context [refresh ?X] =>
        destruct (refreshAgentData_spec ids network closure X) as (rounds & Hreq & Hall & Hrun)
    end;
    exists rounds; (split; [ exact Hall | split; [ exact Hreq | ] ]);
    subst refresh; rewrite Hrun;
    unfold refresh_outcome, refresh_store, idle, refreshed, waiting, sending;
    destruct (completes ids network);
    cbn; rewrite <- ?app_assoc, ?app_nil_r; reflexivity.
Qed.


Lemma malformed_ends closure :
  malformed network closure = true -> ends (chat_run network closure) = true.
Proof.
  unfold malformed, succeeded, ends.
  now destruct (Api.result (chat_run network closure)).
Qed.

Lemma handleSend_waits closure st :
  trim (App.input closure) <> "" ->
  ends (chat_run network closure) = false ->
  App.handleSend ids network closure st = (opening closure, asked closure st, Pending).
Proof.
  intros Htext Hends. pose proof (handleSend_spec closure st Htext) as Hspec.
  now rewrite Hends in Hspec.
Qed.

Lemma no_refresh_in_rounds rounds :
  Forall (fun e => request_or_console e = true) rounds ->
  List.filter is_refresh rounds = [].
Proof.
  intros Hall. apply filter_none.
  eapply Forall_impl; [ exact Hall | ]. now intros [].
Qed.

Lemma refresh_events_requests closure rounds :
  List.filter is_request (refresh_events ids network closure rounds) =
  List.filter is_request rounds.
Proof.
  unfold refresh_events, loading_flag, publication.
  rewrite !List.filter_app.
  destruct (Nat.eqb (size (App.agents closure)) 0);
    destruct (completes ids network);
    destruct (Nat.ltb 0 (fresh_count ids network)); simpl;
    now rewrite ?app_nil_r.
Qed.

Lemma refresh_events_no_refresh closure rounds :
  Forall (fun e => request_or_console e = true) rounds ->
  List.filter is_refresh (refresh_events ids network closure rounds) = [].
Proof.
  intros Hall. unfold refresh_events, loading_flag, publication.
  rewrite !List.filter_app, (no_refresh_in_rounds rounds Hall).
  destruct (Nat.eqb (size (App.agents closure)) 0);
    destruct (completes ids network);
    destruct (Nat.ltb 0 (fresh_count ids network)); reflexivity.
Qed.

(** A send with text whose chat call ends, told by the entry it appends. *)
Lemma handleSend_appends closure st :
  trim (App.input closure) <> "" ->
  ends (chat_run network closure) = true ->
  exists reply tr after,
    App.handleSend ids network closure st =
      (prologue closure ++ App.setMessages reply :: tr, after,
       if malformed network closure || completes ids network then Returns tt else Pending) /\
    App.messages after = (App.messages st ++ [user_entry closure]) ++ [reply] /\
    App.input after = "" /\
    App.loading after = negb (malformed network closure || completes ids network) /\
    App.agents after =
      (if malformed network closure then App.agents st
       else App.agents (refresh_store ids network closure st)) /\
    App.backendOnline after =
      (if malformed network closure then App.backendOnline st
       else App.backendOnline (refresh_store ids network closure st)) /\
    List.filter is_request tr = (if malformed network closure then []
                                 else requested network ids) /\
    reply = (if malformed network closure then critical_entry
             else reply_entry network closure).
Proof.
  intros Htext Hends. pose proof (handleSend_spec closure st Htext) as Hspec.
  rewrite Hends in Hspec.
  destruct (malformed network closure).
  - exists critical_entry, [App.setLoading false], (idle (sending closure st critical_entry)).
    rewrite Hspec. repeat split.
  - destruct Hspec as (rounds & Hall & Hreq & Hrun).
    eexists _, _, _. split; [ rewrite Hrun; reflexivity | ].
    unfold refresh_outcome, refresh_store.
    change (App.entered_refreshAgentData :: ?l) with ([App.entered_refreshAgentData] ++ l).
    rewrite !List.filter_app, refresh_events_requests, Hreq.
    destruct (completes ids network); simpl; rewrite ?app_nil_r; repeat split.
Qed.

(** ** Blank text *)

Lemma strip_any_whitespace w rest :
  In w whitespace -> strip_any whitespace (w ++ rest) = Some rest.
Proof.
  unfold whitespace. intros Hw. simpl in Hw.
  repeat (destruct Hw as [ <- | Hw ]; [ reflexivity | ]).
  destruct Hw.
Qed.

Lemma whitespace_nonempty w : In w whitespace -> 1 <= length w.
Proof.
  unfold whitespace. intros Hw. simpl in Hw.
  repeat (destruct Hw as [ <- | Hw ]; [ simpl; lia | ]).
  destruct Hw.
Qed.

Lemma strip_leading_blank ws fuel :
  Forall (fun w => In w whitespace) ws ->
  length ws <= fuel ->
  strip_leading whitespace fuel (concat ws) = [].
Proof.
  intros Hws. revert fuel.
  induction Hws as [ | w ws Hw _ IH ]; intros fuel Hfuel.
  - now destruct fuel.
  - destruct fuel as [ | fuel ]; [ simpl in Hfuel; lia | ].
    change (strip_leading whitespace (S fuel) (concat (w :: ws)))
      with (match strip_any whitespace (w ++ concat ws) with
            | Some l' => strip_leading whitespace fuel l'
            | None => w ++ concat ws
            end).
    rewrite (strip_any_whitespace w _ Hw).
    apply IH. simpl in Hfuel. lia.
Qed.

Lemma length_concat_blank ws :
  Forall (fun w => In w whitespace) ws -> length ws <= length (concat ws).
Proof.
  induction 1 as [ | w ws Hw _ IH ]; simpl; [ lia | ].
  rewrite length_app. pose proof (whitespace_nonempty w Hw). lia.
Qed.

(** Text made of whitespace only trims to the empty string. *)
Lemma trim_whitespace_only s : whitespace_only s -> trim s = "".
Proof.
  intros (ws & Hws & ->). unfold trim.
  rewrite list_ascii_of_string_of_list_ascii.
  rewrite (strip_leading_blank ws _ Hws (length_concat_blank ws Hws)).
  reflexivity.
Qed.

(** C9. A send whose text is empty or made of whitespace only is a no-op:
    the handler returns at once, appends no entry (neither [setMessages] nor
    any other setter runs), issues no gateway call, and leaves every state
    cell as it was. What it does do is cancel the form's default action. *)
Theorem blank_send_is_a_no_op closure st :
  whitespace_only (App.input closure) ->
  App.handleSend ids network closure st = ([App.preventDefault], st, Returns tt) /\
  List.filter is_request (trace_of (App.handleSend ids network closure st)) = [] /\
  App.messages (store_of (App.handleSend ids network closure st)) = App.messages st.
Proof.
  intros Hblank. apply trim_whitespace_only in Hblank.
  assert (Hrun : App.handleSend ids network closure st = ([App.preventDefault], st, Returns tt)).
  { unfold App.handleSend. cbv zeta. rewrite Hblank. reflexivity. }
  rewrite Hrun. repeat split; reflexivity.
Qed.

Lemma reply_entry_is_assistant closure :
  is_assistant_entry (App.setMessages (reply_entry network closure)) = true.
Proof.
  unfold reply_entry.
  destruct (succeeded _); [ destruct (String.eqb _ _) | ]; reflexivity.
Qed.

(** C7 (amended). A send with non-empty trimmed text whose chat call returns
    a failure envelope, or a success envelope whose data can be read, triggers
    exactly one refresh, right after the assistant entry is appended. When the
    data of a success envelope is [null], building the entry throws: the
    handler's [catch] appends the critical entry and no refresh is triggered.
    (A chat call that never returns is followed by no entry and no refresh.) *)
Theorem send_refreshes_once closure st :
  trim (App.input closure) <> "" ->
  (ends (chat_run network closure) = true ->
   malformed network closure = false ->
   exists before after,
     trace_of (App.handleSend ids network closure st) =
     before ++ App.setMessages (reply_entry network closure)
            :: App.entered_refreshAgentData :: after /\
     is_assistant_entry (App.setMessages (reply_entry network closure)) = true /\
     List.filter is_assistant_entry before = [] /\
     List.filter is_refresh before = [] /\
     List.filter is_refresh after = []) /\
  (malformed network closure = true ->
   List.filter is_refresh (trace_of (App.handleSend ids network closure st)) = [] /\
   List.filter is_assistant_entry (trace_of (App.handleSend ids network closure st)) =
   [App.setMessages critical_entry]) /\
  (ends (chat_run network closure) = false ->
   List.filter is_refresh (trace_of (App.handleSend ids network closure st)) = [] /\
   List.filter is_assistant_entry (trace_of (App.handleSend ids network closure st)) = []).
Proof.
  intros Htext.
  pose proof (handleSend_spec closure st Htext) as Hspec.
  split; [ | split ].
  - intros Hends Hcase. rewrite Hends, Hcase in Hspec.
    destruct Hspec as (rounds & Hall & _ & Hrun).
    exists (prologue closure),
           (refresh_events ids network closure rounds ++
            (if completes ids network then [App.setLoading false] else [])).
    rewrite Hrun. unfold trace_of. simpl fst.
    split; [ reflexivity | ].
    split; [ apply reply_entry_is_assistant | ].
    split; [ reflexivity | ].
    split; [ reflexivity | ].
    rewrite List.filter_app, (refresh_events_no_refresh closure rounds Hall).
    now destruct (completes ids network).
  - intros Hcase. rewrite (malformed_ends closure Hcase), Hcase in Hspec.
    rewrite Hspec. split; reflexivity.
  - intros Hends. rewrite Hends in Hspec. rewrite Hspec. split; reflexivity.
Qed.

(** C8 (amended). A send with non-empty trimmed text whose chat call returns
    a success envelope with data that can be read appends, after the user
    entry, exactly one assistant entry, and the mode alone decides its shape:
    in simple mode the response text, cost, model and agent, in multi-agent
    mode the final answer, total cost, agents used and routing decision;
    neither entry has a property of the other shape. When the data is [null],
    the one assistant entry appended is the critical entry. *)
Theorem successful_send_appends_mode_entry closure st data :
  trim (App.input closure) <> "" ->
  Api.result (chat_run network closure) = Returns (Api.envelope_success data) ->
  let entry := if String.eqb (App.chatMode closure) "simple"
               then simple_entry data else multi_agent_entry data in
  (nullish data = false ->
   App.messages (store_of (App.handleSend ids network closure st)) =
   App.messages st ++ [user_entry closure; entry]) /\
  (nullish data = true ->
   App.messages (store_of (App.handleSend ids network closure st)) =
   App.messages st ++ [user_entry closure; critical_entry]) /\
  keys entry =
  (if String.eqb (App.chatMode closure) "simple"
   then ["role"; "content"; "cost"; "model_used"; "agent_id"]
   else ["role"; "content"; "cost"; "agents_used"; "routing_decision"]).
Proof.
  intros Htext Hres. cbv zeta.
  assert (Hends : ends (chat_run network closure) = true)
    by (unfold ends; now rewrite Hres).
  destruct (handleSend_appends closure st Htext Hends)
    as (reply & tr & after & Hrun & Hmessages & _ & _ & _ & _ & _ & Hreply).
  assert (Hentry : reply_entry network closure =
                   if String.eqb (App.chatMode closure) "simple"
                   then simple_entry data else multi_agent_entry data).
  { unfold reply_entry, succeeded, data_of. now rewrite Hres. }
  assert (Hcase : malformed network closure = nullish data).
  { unfold malformed, succeeded, data_of. now rewrite Hres. }
  rewrite Hcase, Hentry in Hreply.
  rewrite Hrun. unfold store_of. simpl. rewrite Hmessages, Hreply, <- app_assoc.
  split; [ | split ].
  - now intros ->.
  - now intros ->.
  - now destruct (String.eqb _ _).
Qed.

End DispatcherFacts.

Lemma blank_send_is_a_no_op_witness :
  App.handleSend AGENT_IDS Examples.healthy Examples.blank_render Examples.later_render =
  ([App.preventDefault], Examples.later_render, Returns tt).
Proof.
  apply (blank_send_is_a_no_op AGENT_IDS Examples.healthy
           Examples.blank_render Examples.later_render).
  exists [utf8 [32]; utf8 [32]; utf8 [32]].
  split; [ | reflexivity ].
  repeat (apply List.Forall_cons; [ do 5 right; left; reflexivity | ]).
  apply List.Forall_nil.
Defined.

Lemma send_refreshes_once_witness :
  exists before after,
    trace_of (App.handleSend AGENT_IDS Examples.healthy
                Examples.typed_render Examples.typed_render) =
    before ++ App.setMessages (reply_entry Examples.healthy Examples.typed_render)
           :: App.entered_refreshAgentData :: after /\
    is_assistant_entry
      (App.setMessages (reply_entry Examples.healthy Examples.typed_render)) = true /\
    List.filter is_assistant_entry before = [] /\
    List.filter is_refresh before = [] /\
    List.filter is_refresh after = [].
Proof.
  apply (proj1 (send_refreshes_once AGENT_IDS Examples.healthy
                  Examples.typed_render Examples.typed_render
                  ltac:(vm_compute; discriminate))).
  - vm_compute. reflexivity.
  - vm_compute. reflexivity.
Defined.

(** C7, as stated, fails: in simple mode, a chat call answered by a success
    envelope whose data is [null] ends in the handler's [catch]; the critical
    entry is appended and no refresh is triggered. *)
Lemma malformed_send_skips_the_refresh :
  trim (App.input Examples.typed_render) = "hello" /\
  Api.result (chat_run Examples.all_null Examples.typed_render) =
  Returns (Api.envelope_success null) /\
  List.filter is_refresh
    (trace_of (App.handleSend AGENT_IDS Examples.all_null
                 Examples.typed_render Examples.typed_render)) = [] /\
  List.filter is_assistant_entry
    (trace_of (App.handleSend AGENT_IDS Examples.all_null
                 Examples.typed_render Examples.typed_render)) =
  [App.setMessages critical_entry].
Proof. by_evaluation. Qed.

Lemma successful_send_appends_mode_entry_witness :
  App.messages (store_of (App.handleSend AGENT_IDS Examples.healthy
                            Examples.typed_render Examples.typed_render)) =
  [user_entry Examples.typed_render; simple_entry Examples.chat_body] /\
  keys (simple_entry Examples.chat_body) =
  ["role"; "content"; "cost"; "model_used"; "agent_id"].
Proof.
  pose proof (successful_send_appends_mode_entry AGENT_IDS Examples.healthy
                Examples.typed_render Examples.typed_render Examples.chat_body
                ltac:(vm_compute; discriminate) ltac:(vm_compute; reflexivity))
    as (Hreadable & _ & Hkeys).
  split; [ exact (Hreadable eq_refl) | exact Hkeys ].
Defined.

(** C8, as stated, fails: in simple mode, a successful chat call whose data
    is [null] appends one assistant entry, but it is the critical entry, which
    has none of the simple shape's cost, model and agent properties. *)
Lemma successful_send_with_null_data_appends_critical_entry :
  Api.result (chat_run Examples.all_null Examples.typed_render) =
  Returns (Api.envelope_success null) /\
  App.messages (store_of (App.handleSend AGENT_IDS Examples.all_null
                            Examples.typed_render Examples.typed_render)) =
  [user_entry Examples.typed_render; critical_entry] /\
  keys critical_entry = ["role"; "content"].
Proof. by_evaluation. Qed.

(** A send whose chat call never returns: the question is in the timeline,
    the input is cleared, and the loading flag stays up for good. *)
Example stalled_send_scenario :
  let run := App.handleSend AGENT_IDS Examples.stalled_body
               Examples.typed_render Examples.typed_render in
  trace_of run =
  [ App.preventDefault;
    App.setMessages (user_entry Examples.typed_render);
    App.setInput "";
    App.setLoading true;
    App.issued (App.sendSimpleChat "hello" "coordinator") ] /\
  App.messages (store_of run) = [user_entry Examples.typed_render] /\
  App.loading (store_of run) = true /\
  outcome_of run = Pending.
Proof. by_evaluation. Qed.

(* ================================================================== *)
(** * Properties of the 3D view's polling *)
(* ================================================================== *)

Section PollingFacts.

Variable ids : list string.
Variable network : Api.request -> Api.transport.

(** One status call of a poll: the node is derived from the envelope itself,
    whichever of the two it is, once the call has ended. *)
Lemma poll_reads_the_envelope id :
  CircuitMesh3D.poll network id =
  if ends (Api.getAgentStatus network id) then Returns (blind_node id) else Pending.
Proof.
  unfold CircuitMesh3D.poll, ends.
  destruct (run_of_cases network (App.getAgentStatus id)) as [[d H] | [[m H] | H]];
    simpl in H; rewrite H; reflexivity.
Qed.

Lemma all_polls :
  CircuitMesh3D.all (map (CircuitMesh3D.poll network) ids) =
  if polls_end ids network then Returns (map blind_node ids) else Pending.
Proof.
  unfold polls_end. induction ids as [ | id l IH ]; [ reflexivity | ].
  simpl. rewrite poll_reads_the_envelope, IH.
  destruct (ends (Api.getAgentStatus network id));
    now destruct (forallb _ l).
Qed.

Lemma fetchStates_blind agents :
  CircuitMesh3D.fetchStates ids network agents =
  if polls_end ids network then map blind_node ids else agents.
Proof.
  unfold CircuitMesh3D.fetchStates. rewrite all_polls.
  now destruct (polls_end ids network).
Qed.

(** C10. The polling of the 3D view reads [status] and [failure_count] off
    the envelope, where the gateway puts neither: whatever the backend
    reports, and whether the calls succeed or fail, every poll whose calls
    end replaces the view's agents by one node per identity whose status is
    [undefined] and whose failure count is 0. (A poll with a call that never
    ends leaves the view's agents as they were.) *)
Theorem fetchStates_never_sees_the_backend agents :
  (polls_end ids network = true ->
   CircuitMesh3D.fetchStates ids network agents = map blind_node ids /\
   Forall (fun node => prop node "status" = undefined /\
                       prop node "failureCount" = num zero)
          (CircuitMesh3D.fetchStates ids network agents)) /\
  (polls_end ids network = false ->
   CircuitMesh3D.fetchStates ids network agents = agents) /\
  (forall id,
      ends (Api.getAgentStatus network id) = true ->
      CircuitMesh3D.poll network id = Returns (blind_node id)).
Proof.
  rewrite fetchStates_blind. split; [ | split ].
  - intros ->. split; [ reflexivity | ].
    apply List.Forall_forall. intros node Hnode.
    apply in_map_iff in Hnode as (id & <- & _). split; reflexivity.
  - now intros ->.
  - intros id Hends. now rewrite poll_reads_the_envelope, Hends.
Qed.

End PollingFacts.

(** A backend in good health reports a closed circuit with two failures; the
    3D view shows neither. *)
Example healthy_backend_is_not_seen :
  data_of (Api.getAgentStatus Examples.healthy "coder") = Examples.circuit_body /\
  CircuitMesh3D.fetchStates AGENT_IDS Examples.healthy [] =
  [blind_node "coordinator"; blind_node "researcher"; blind_node "coder"].
Proof. by_evaluation. Qed.

(** Fan-out, as [fetchStates] does it, would put every issue first. *)
Example fan_out_puts_issues_first :
  fanned_out [ App.issued (App.getAgentStatus "coordinator");
               App.issued (App.getAgentStatus "researcher");
               App.settled [App.getAgentStatus "coordinator";
                            App.getAgentStatus "researcher"] ] = true.
Proof. reflexivity. Qed.

(** [trim] removes the no-break space and the byte-order mark as well. *)
Example trim_unicode_blanks :
  trim (string_of_list_ascii (utf8 [194; 160; 32; 104; 105; 239; 187; 191; 10])) = "hi".
Proof. reflexivity. Qed.

(* ================================================================== *)
(** * Further properties of the request gateway *)
(* ================================================================== *)

Import Behaviour.

Section GatewayBehaviour.

Variable network : Api.request -> Api.transport.

(** X1. [apiFetch] returns a success envelope exactly when a response arrives
    before the timer fires, its status is 2xx and its body parses; the
    envelope's data is then the parsed body, untouched. *)
Theorem apiFetch_succeeds_iff endpoint options data :
  Api.result (Api.apiFetch network endpoint options) = Returns (Api.envelope_success data) <->
  exists r, responds network endpoint options r /\ Api.ok r = true /\ Api.json r = Returns data.
Proof.
  split.
  - destruct (fetch_cases network endpoint options)
      as [[Hslow Hfetch] | (ms & Hlat & Hms & Hfetch)];
      rewrite (apiFetch_unfold _ _ _ _ _ _ Hfetch); simpl Api.result.
    + simpl. discriminate.
    + destruct (Api.settles _) as [ r | e ] eqn:Hsettles.
      * destruct (Api.try_block (Api.fulfilled r)) as [ envelope | e | ] eqn:Hblock;
          simpl; try discriminate.
        intros [= ->]. revert Hblock. unfold Api.try_block.
        destruct (Api.ok r) eqn:Hok; cbn [negb].
        -- destruct (Api.json r) as [ d | e | ] eqn:Hjson; simpl; try discriminate.
           intros [= <-]. exists r. repeat split; try assumption.
           exists ms. auto.
        -- destruct (Api.parsed_errorMessage r) as [ m | e | ]; cbn [obind]; try discriminate.
           destruct (failed_response_throws (Api.status r) m) as [e' He']. congruence.
      * simpl. discriminate.
  - intros (r & Hresponds & Hok & Hjson).
    destruct (fetch_responds network _ _ _ Hresponds) as [ms Hfetch].
    rewrite (apiFetch_unfold _ _ _ _ _ _ Hfetch). simpl. rewrite Hok, Hjson. reflexivity.
Qed.

(** X2. A call that ends in a failure envelope raises exactly one error
    toast, with the very message of the envelope; a call that ends in a
    success envelope raises none. *)
Theorem failure_raises_one_toast endpoint options :
  (forall errorMsg,
      Api.result (Api.apiFetch network endpoint options) =
        Returns (Api.envelope_failure errorMsg) ->
      Api.toasts (Api.apiFetch network endpoint options) = [Api.toast_error errorMsg]) /\
  (forall data,
      Api.result (Api.apiFetch network endpoint options) =
        Returns (Api.envelope_success data) ->
      Api.toasts (Api.apiFetch network endpoint options) = []).
Proof.
  destruct (Api.fetch (network (Api.Request endpoint options))) as [[s a] t] eqn:Hfetch.
  rewrite (apiFetch_unfold _ _ _ _ _ _ Hfetch). simpl.
  destruct (Api.try_block s) as [ envelope | error | ] eqn:Hattempt; simpl.
  - apply try_block_returns in Hattempt as [d ->]. split; [ discriminate | reflexivity ].
  - split; [ now intros m [= <-] | discriminate ].
  - split; discriminate.
Qed.

(** X4. A call that gets no response ends within the 10,000 ms of the
    timeout; a call that gets one ends within the timeout plus the time its
    body takes. A call does not end at all only when it got a response whose
    body never arrives in full. *)
Theorem call_duration_is_bounded endpoint options :
  match Api.elapsed (Api.apiFetch network endpoint options) with
  | Some t =>
      (t <= Api.TIMEOUT_MS)%N \/
      exists r, responds network endpoint options r /\
                Api.json r <> Pending /\
                (t < Api.TIMEOUT_MS + Api.json_latency r)%N
  | None =>
      exists r, responds network endpoint options r /\ Api.json r = Pending
  end.
Proof.
  destruct (fetch_cases network endpoint options)
    as [[Hslow Hfetch] | (ms & Hlat & Hms & Hfetch)];
    rewrite (apiFetch_unfold _ _ _ _ _ _ Hfetch); simpl Api.elapsed.
  - left. simpl. lia.
  - destruct (Api.settles _) as [ r | e ] eqn:Hsettles; simpl.
    + assert (Hresponds : responds network endpoint options r) by (exists ms; auto).
      destruct (Api.json r) as [ body | e | ] eqn:Hjson.
      * right. exists r. rewrite Hjson. repeat split; [ exact Hresponds | discriminate | lia ].
      * right. exists r. rewrite Hjson. repeat split; [ exact Hresponds | discriminate | lia ].
      * exists r. auto.
    + left. lia.
Qed.

Lemma apiFetch_toasts endpoint options :
  (exists data,
      Api.result (Api.apiFetch network endpoint options) =
        Returns (Api.envelope_success data) /\
      Api.toasts (Api.apiFetch network endpoint options) = []) \/
  (exists errorMsg,
      Api.result (Api.apiFetch network endpoint options) =
        Returns (Api.envelope_failure errorMsg) /\
      Api.toasts (Api.apiFetch network endpoint options) = [Api.toast_error errorMsg]) \/
  (Api.result (Api.apiFetch network endpoint options) = Pending /\
   Api.toasts (Api.apiFetch network endpoint options) = []).
Proof.
  destruct (Api.fetch (network (Api.Request endpoint options))) as [[s a] t] eqn:Hfetch.
  rewrite (apiFetch_unfold _ _ _ _ _ _ Hfetch). simpl.
  destruct (Api.try_block s) as [ envelope | error | ] eqn:Hattempt; simpl.
  - apply try_block_returns in Hattempt as [d ->]. left. eauto.
  - right. left. eauto.
  - right. right. auto.
Qed.

Lemma with_toasts_announced loading celebrates endpoint options :
  announced loading celebrates
    (Api.with_toasts loading celebrates (Api.apiFetch network endpoint options)).
Proof.
  unfold announced, Api.with_toasts. cbv zeta. exists 0.
  destruct (apiFetch_toasts endpoint options)
    as [(data & Hres & Htoasts) | [(msg & Hres & Htoasts) | (Hres & Htoasts)]];
    rewrite Hres, Htoasts.
  - split; [ now destruct celebrates | ].
    left. exists data. destruct celebrates; simpl; auto.
  - split; [ now destruct celebrates | ].
    right. left. exists msg. destruct celebrates; simpl; auto.
  - split; [ reflexivity | ]. right. right. simpl. auto.
Qed.

(** X3. [sendQuery], [sendSimpleChat] and [sendChat] raise their loading
    toast first. When the call ends they dismiss the toast whose id is that
    of their loading toast, once, after the gateway's own error toast if
    there is one; the first two then congratulate after a success and only
    then, [sendChat] never does. When the call never ends, the loading toast
    is all there is: it is never dismissed. *)
Theorem wrappers_dismiss_their_loading_toast :
  (forall query agentId force,
      announced "Processing query..." true (Api.sendQuery network query agentId force)) /\
  (forall query agentId,
      announced "Sending message..." true (Api.sendSimpleChat network query agentId)) /\
  (forall agentId messages,
      announced ("Chatting with " +:+ agentId +:+ "...") false
        (Api.sendChat network agentId messages)).
Proof.
  repeat split; intros; apply with_toasts_announced.
Qed.

End GatewayBehaviour.

(* ================================================================== *)
(** * Further properties of the status aggregator *)
(* ================================================================== *)

Section AggregatorBehaviour.

Variable ids : list string.
Variable network : Api.request -> Api.transport.

(** X5. A refresh never throws and leaves the input, the timeline, the
    chat's loading flag, the mode and the advanced options as they were. When
    every pair of calls ends, the refresh ends, with the loading flag of the
    agents down. When a pair never ends, the refresh never ends either, and
    that flag is up if the refresh raised it, and as it was otherwise. *)
Theorem refresh_completes_and_keeps_the_rest closure st :
  let r := App.refreshAgentData ids network closure st in
  (completes ids network = true ->
   outcome_of r = Returns tt /\ App.loadingAgents (store_of r) = false) /\
  (completes ids network = false ->
   outcome_of r = Pending /\
   App.loadingAgents (store_of r) =
   (if Nat.eqb (size (App.agents closure)) 0 then true else App.loadingAgents st)) /\
  App.input (store_of r) = App.input st /\
  App.messages (store_of r) = App.messages st /\
  App.loading (store_of r) = App.loading st /\
  App.chatMode (store_of r) = App.chatMode st /\
  App.showAdvanced (store_of r) = App.showAdvanced st /\
  App.forceAllAgents (store_of r) = App.forceAllAgents st /\
  App.selectedAgent (store_of r) = App.selectedAgent st.
Proof.
  cbv zeta.
  destruct (refreshAgentData_spec ids network closure st) as (rounds & _ & _ & Hrun).
  rewrite Hrun. unfold refresh_store, refresh_outcome, outcome_of, store_of. simpl.
  destruct (completes ids network); repeat split; discriminate.
Qed.

(** X6. A refresh never removes an identifier from the agents object, and
    the only identifiers it can add are tracked ones. *)
Theorem refresh_keeps_known_keys_and_adds_tracked_ones closure st :
  let after := store_of (App.refreshAgentData ids network closure st) in
  dom (App.agents st) ⊆ dom (App.agents after) /\
  dom (App.agents after) ⊆ dom (App.agents st) ∪ list_to_set ids.
Proof.
  cbv zeta. rewrite refreshAgentData_store. unfold refresh_store.
  destruct (completes ids network); [ | split; set_solver ].
  split; intros id Hid.
  - apply elem_of_dom. apply elem_of_dom in Hid.
    destruct (in_dec string_dec id ids) as [Hin | Hout];
      [ destruct (incorporated network id) eqn:Hinc | ].
    + rewrite (refreshed_fresh ids network st id Hin Hinc). eauto.
    + rewrite refreshed_stale; [ exact Hid | ]. intros [_ Hyes]. congruence.
    + rewrite refreshed_stale; [ exact Hid | ]. now intros [Hyes _].
  - apply elem_of_union.
    destruct (in_dec string_dec id ids) as [Hin | Hout].
    + right. apply elem_of_list_to_set. now apply list_elem_of_In.
    + left. apply elem_of_dom. apply elem_of_dom in Hid.
      rewrite refreshed_stale in Hid; [ exact Hid | ]. now intros [Hyes _].
Qed.

(** X7. If every entry of the agents object is filed under the name it
    carries, this is still so after a refresh. *)
Theorem refresh_files_entries_by_name closure st :
  filed_by_name (App.agents st) ->
  filed_by_name (App.agents (store_of (App.refreshAgentData ids network closure st))).
Proof.
  unfold filed_by_name. intros Hbefore id agent Hlookup.
  rewrite refreshAgentData_store in Hlookup. unfold refresh_store in Hlookup.
  destruct (completes ids network); [ | now apply Hbefore ].
  destruct (in_dec string_dec id ids) as [Hin | Hout];
    [ destruct (incorporated network id) eqn:Hinc | ].
  - rewrite (refreshed_fresh ids network st id Hin Hinc) in Hlookup.
    now injection Hlookup as <-.
  - rewrite refreshed_stale in Hlookup; [ now apply Hbefore | ].
    intros [_ Hyes]. congruence.
  - rewrite refreshed_stale in Hlookup; [ now apply Hbefore | ]. now intros [Hyes _].
Qed.

(** X8. A refresh raises the loading flag of the agents exactly when the
    render it was created in had no agent at all, whatever the store holds by
    the time it runs. *)
Theorem loading_flag_is_raised_on_first_load_only closure st :
  In (App.setLoadingAgents true)
     (trace_of (App.refreshAgentData ids network closure st)) <->
  App.agents closure = ∅.
Proof.
  destruct (refreshAgentData_spec ids network closure st) as (rounds & _ & Hall & Hrun).
  rewrite Hrun. unfold trace_of, refresh_events. simpl fst.
  rewrite <- (map_size_empty_iff (App.agents closure)).
  split.
  - intros [Habs | Hin]; [ discriminate | ].
    apply in_app_or in Hin as [Hflag | Hin].
    + unfold loading_flag in Hflag.
      destruct (Nat.eqb_spec (size (App.agents closure)) 0); [ assumption | destruct Hflag ].
    + exfalso. apply in_app_or in Hin as [Hround | Hpub].
      * rewrite List.Forall_forall in Hall. now apply Hall in Hround.
      * unfold publication in Hpub.
        destruct (completes ids network); [ | destruct Hpub ].
        destruct (Nat.ltb _ _); simpl in Hpub; intuition discriminate.
  - intros Hempty. right. apply in_or_app. left.
    unfold loading_flag. rewrite Hempty. now left.
Qed.

(** X9. A second refresh that gets the same answers as the first leaves
    the agents object and the verdict as the first left them, and, when the
    pairs of calls all end, the whole store. *)
Theorem refresh_twice_is_refresh_once closure closure' st :
  let once := store_of (App.refreshAgentData ids network closure st) in
  let twice := store_of (App.refreshAgentData ids network closure' once) in
  (completes ids network = true -> twice = once) /\
  App.agents twice = App.agents once /\
  App.backendOnline twice = App.backendOnline once.
Proof.
  cbv zeta. rewrite !refreshAgentData_store. unfold refresh_store.
  destruct (completes ids network).
  - assert (Hsame : refreshed ids network (refreshed ids network st) =
                    refreshed ids network st).
    { unfold refreshed. simpl.
      destruct (Nat.ltb 0 (fresh_count ids network)); [ | reflexivity ].
      now rewrite (assoc_L (∪)), (idemp_L (∪)). }
    rewrite Hsame. auto.
  - repeat split. discriminate.
Qed.

End AggregatorBehaviour.

(* ================================================================== *)
(** * Further properties of the conversation dispatcher *)
(* ================================================================== *)

Section DispatcherBehaviour.

Variable ids : list string.
Variable network : Api.request -> Api.transport.

Lemma handleSend_blank closure st :
  trim (App.input closure) = "" ->
  App.handleSend ids network closure st = ([App.preventDefault], st, Returns tt).
Proof.
  intros Hblank. unfold App.handleSend. cbv zeta. rewrite Hblank. reflexivity.
Qed.

(** X10. [handleSend] never throws, whatever the input, the mode and the
    network's answers: an exception raised while the response is processed is
    absorbed by its [catch]. It runs to its end when the text is blank and,
    otherwise, when its chat call ends and, if the response can be read, so
    does every pair of calls of the refresh; in every other case it stays
    suspended at the call that never ends. *)
Theorem handleSend_never_throws closure st :
  (forall e, outcome_of (App.handleSend ids network closure st) <> Throws e) /\
  outcome_of (App.handleSend ids network closure st) =
  (if String.eqb (trim (App.input closure)) "" || send_ends ids network closure
   then Returns tt else Pending).
Proof.
  assert (Hrun : outcome_of (App.handleSend ids network closure st) =
                 (if String.eqb (trim (App.input closure)) "" || send_ends ids network closure
                  then Returns tt else Pending)).
  { destruct (String.eqb_spec (trim (App.input closure)) "") as [Hblank | Htext].
    - now rewrite (handleSend_blank closure st Hblank).
    - unfold send_ends. cbn [orb].
      destruct (ends (chat_run network closure)) eqn:Hends.
      + destruct (handleSend_appends ids network closure st Htext Hends)
          as (reply & tr & after & Hrun & _).
        now rewrite Hrun.
      + now rewrite (handleSend_waits ids network closure st Htext Hends). }
  split; [ | exact Hrun ].
  intros e. rewrite Hrun. now destruct (_ || _).
Qed.

Lemma appended_reply_is_assistant closure :
  is_assistant_entry
    (App.setMessages (if malformed network closure then critical_entry
                      else reply_entry network closure)) = true.
Proof.
  destruct (malformed network closure); [ reflexivity | apply reply_entry_is_assistant ].
Qed.

(** X11. A send with text appends the user's entry and clears the input.
    When its chat call ends, whether it succeeds, fails or its response
    cannot be read, exactly one assistant entry follows the user's, and the
    loading flag is down at the end unless the refresh that follows never
    ends. When the chat call never ends, the user's entry is the only one
    appended and the loading flag stays up. *)
Theorem send_appends_a_question_and_one_answer closure st :
  trim (App.input closure) <> "" ->
  let after := store_of (App.handleSend ids network closure st) in
  App.input after = "" /\
  (ends (chat_run network closure) = true ->
   exists reply,
     is_assistant_entry (App.setMessages reply) = true /\
     App.messages after = App.messages st ++ [user_entry closure; reply] /\
     App.loading after = negb (send_ends ids network closure)) /\
  (ends (chat_run network closure) = false ->
   App.messages after = App.messages st ++ [user_entry closure] /\
   App.loading after = true).
Proof.
  intros Htext. cbv zeta. unfold send_ends.
  destruct (ends (chat_run network closure)) eqn:Hends.
  - destruct (handleSend_appends ids network closure st Htext Hends)
      as (reply & tr & after & Hrun & Hmessages & Hinput & Hloading & _ & _ & _ & ->).
    rewrite Hrun. unfold store_of. simpl.
    split; [ exact Hinput | split; [ intros _ | discriminate ] ].
    eexists. split; [ apply appended_reply_is_assistant | ].
    rewrite Hmessages, Hloading, <- app_assoc. auto.
  - rewrite (handleSend_waits ids network closure st Htext Hends).
    split; [ reflexivity | split; [ discriminate | intros _; split; reflexivity ] ].
Qed.

Lemma no_chat_issue_among_requested l :
  List.filter is_chat_issue (requested network l) = [].
Proof.
  induction l as [ | id l IH ]; [ reflexivity | ].
  simpl. destruct (pair_ends network id); [ exact IH | reflexivity ].
Qed.

Lemma chat_issues_are_requests tr :
  List.filter is_chat_issue tr = List.filter is_chat_issue (List.filter is_request tr).
Proof.
  induction tr as [ | e tr IH ]; [ reflexivity | ].
  destruct e as [ | [ | | | ] | | | | | | | | | ]; simpl; now rewrite IH.
Qed.

(** X12. A send with text makes exactly one chat call, after the user's
    entry is appended and before any other request: in simple mode
    [sendSimpleChat] with the trimmed text and the selected agent, otherwise
    [sendQuery] with the trimmed text, the agent [user_agent] and the
    force-all-agents flag. *)
Theorem send_makes_one_chat_call_for_its_mode closure st :
  trim (App.input closure) <> "" ->
  let tr := trace_of (App.handleSend ids network closure st) in
  let call :=
    if String.eqb (App.chatMode closure) "simple"
    then App.sendSimpleChat (trim (App.input closure)) (App.selectedAgent closure)
    else App.sendQuery (trim (App.input closure)) "user_agent" (App.forceAllAgents closure) in
  List.filter is_chat_issue tr = [App.issued call] /\
  exists before after,
    tr = before ++ App.issued call :: after /\
    In (App.setMessages (user_entry closure)) before /\
    List.filter is_request before = [].
Proof.
  intros Htext. cbv zeta.
  destruct (ends (chat_run network closure)) eqn:Hends.
  - destruct (handleSend_appends ids network closure st Htext Hends)
      as (reply & tr & after & Hrun & _ & _ & _ & _ & _ & Hreq & _).
    rewrite Hrun. unfold trace_of. cbn [fst]. split.
    + change (prologue closure ++ App.setMessages reply :: tr)
        with (prologue closure ++ [App.setMessages reply] ++ tr).
      rewrite !List.filter_app, (chat_issues_are_requests tr), Hreq.
      assert (Hnone : List.filter is_chat_issue
                        (if malformed network closure then []
                         else requested network ids) = [])
        by (destruct (malformed network closure);
            [ reflexivity | apply no_chat_issue_among_requested ]).
      rewrite Hnone. unfold prologue, opening, chat_call.
      now destruct (String.eqb (App.chatMode closure) "simple").
    + exists [App.preventDefault; App.setMessages (user_entry closure);
              App.setInput ""; App.setLoading true].
      eexists. split; [ reflexivity | ]. split; [ simpl; auto | reflexivity ].
  - rewrite (handleSend_waits ids network closure st Htext Hends).
    unfold trace_of, opening, chat_call. cbn [fst]. split.
    + now destruct (String.eqb (App.chatMode closure) "simple").
    + exists [App.preventDefault; App.setMessages (user_entry closure);
              App.setInput ""; App.setLoading true], [].
      split; [ reflexivity | ]. split; [ simpl; auto | reflexivity ].
Qed.

(** X13. When the chat call fails, the assistant entry appended carries the
    gateway's message behind the warning sign and [Error: ], or the text
    [Failed to get response.] when that message is empty. *)
Theorem failed_chat_call_is_reported_in_the_timeline closure st errorMsg :
  trim (App.input closure) <> "" ->
  Api.result (chat_run network closure) = Returns (Api.envelope_failure errorMsg) ->
  App.messages (store_of (App.handleSend ids network closure st)) =
  App.messages st ++
  [ user_entry closure;
    object [("role", str "assistant"); ("content", str (reported errorMsg))] ].
Proof.
  intros Htext Hres.
  assert (Hends : ends (chat_run network closure) = true)
    by (unfold ends; now rewrite Hres).
  destruct (handleSend_appends ids network closure st Htext Hends)
    as (reply & tr & after & Hrun & Hmessages & _ & _ & _ & _ & _ & ->).
  rewrite Hrun. unfold store_of. simpl. rewrite Hmessages, <- app_assoc.
  unfold malformed, reply_entry, succeeded, error_text, error_of. rewrite Hres. reflexivity.
Qed.

Lemma totalQueries_app messages m n :
  View.totalQueries messages = Returns n ->
  View.totalQueries (messages ++ [m]) =
  obind (View.is_user m) (fun user => Returns (if user then S n else n)).
Proof.
  revert n. induction messages as [ | x l IH ]; intros n.
  - intros [= <-]. simpl. now destruct (View.is_user m).
  - simpl. destruct (View.is_user x) as [ u | e | ]; simpl; try discriminate.
    destruct (View.totalQueries l) as [ k | e | ]; simpl; try discriminate.
    intros [= <-]. rewrite (IH k eq_refl).
    destruct (View.is_user m) as [ um | e | ]; simpl; try reflexivity.
    now destruct u, um.
Qed.

Lemma assistant_entry_is_not_a_question reply :
  is_assistant_entry (App.setMessages reply) = true ->
  View.is_user reply = Returns false.
Proof.
  unfold is_assistant_entry, View.is_user, prop.
  destruct (get reply "role") as [ role | e | ]; simpl; try discriminate.
  destruct role as [ | | | | r | | ]; try discriminate.
  intros Hrole. apply String.eqb_eq in Hrole as ->. reflexivity.
Qed.

(** X14. A send with text raises the count of queries by exactly one,
    whatever its outcome. *)
Theorem send_counts_as_one_query closure st n :
  trim (App.input closure) <> "" ->
  View.totalQueries (App.messages st) = Returns n ->
  View.totalQueries (App.messages (store_of (App.handleSend ids network closure st))) =
  Returns (S n).
Proof.
  intros Htext Hcount.
  destruct (ends (chat_run network closure)) eqn:Hends.
  - destruct (handleSend_appends ids network closure st Htext Hends)
      as (reply & tr & after & Hrun & Hmessages & _ & _ & _ & _ & _ & Hreply).
    rewrite Hrun. unfold store_of. simpl. rewrite Hmessages.
    rewrite (totalQueries_app _ reply (S n)).
    + rewrite (assistant_entry_is_not_a_question reply); [ reflexivity | ].
      rewrite Hreply. apply appended_reply_is_assistant.
    + now rewrite (totalQueries_app _ _ n Hcount).
  - rewrite (handleSend_waits ids network closure st Htext Hends).
    unfold store_of, asked. simpl.
    now rewrite (totalQueries_app _ _ n Hcount).
Qed.

(** X15. After a send with text whose chat call has returned an envelope
    that can be processed, the dashboard shows what a refresh shows: the
    agents object and the verdict are those a refresh of the store would
    give. When the response cannot be read, no refresh runs and both stay as
    they were; so they do when the chat call never returns. *)
Theorem send_leaves_the_dashboard_refreshed closure st :
  trim (App.input closure) <> "" ->
  let after := store_of (App.handleSend ids network closure st) in
  let refreshed_store := store_of (App.refreshAgentData ids network closure st) in
  (ends (chat_run network closure) = true ->
   malformed network closure = false ->
   App.agents after = App.agents refreshed_store /\
   App.backendOnline after = App.backendOnline refreshed_store) /\
  (malformed network closure = true ->
   App.agents after = App.agents st /\
   App.backendOnline after = App.backendOnline st) /\
  (ends (chat_run network closure) = false ->
   App.agents after = App.agents st /\
   App.backendOnline after = App.backendOnline st).
Proof.
  intros Htext. cbv zeta. rewrite refreshAgentData_store.
  destruct (ends (chat_run network closure)) eqn:Hends.
  - destruct (handleSend_appends ids network closure st Htext Hends)
      as (reply & tr & after & Hrun & _ & _ & _ & Hagents & Honline & _).
    rewrite Hrun. unfold store_of. simpl. rewrite Hagents, Honline.
    split; [ | split ].
    + now intros _ ->.
    + now intros ->.
    + discriminate.
  - rewrite (handleSend_waits ids network closure st Htext Hends).
    split; [ discriminate | split ].
    + intros Hcase. apply malformed_ends in Hcase. congruence.
    + intros _. split; reflexivity.
Qed.

End DispatcherBehaviour.

(* ================================================================== *)
(** * Networks on which every call ends *)
(* ================================================================== *)

Section ArrivingBodies.

Variable ids : list string.
Variable network : Api.request -> Api.transport.

(** When no body read is left waiting, every gateway call ends, and with
    them every refresh, every poll and every send. *)
Hypothesis Harrive : bodies_arrive network.

Lemma apiFetch_ends endpoint options :
  ends (Api.apiFetch network endpoint options) = true.
Proof.
  unfold ends.
  destruct (Api.result (Api.apiFetch network endpoint options)) eqn:Hres; try reflexivity.
  apply apiFetch_pending in Hres as (r & (ms & _ & _ & Hsettles) & Hjson).
  now apply Harrive in Hsettles.
Qed.

Lemma run_of_ends c : ends (App.run_of network c) = true.
Proof.
  unfold ends.
  destruct c; simpl;
    unfold Api.getAgentStatus, Api.getAgentCost, Api.sendSimpleChat, Api.sendQuery;
    rewrite ?(with_toasts_result _ _ _ (apiFetch_never_rejects network _ _));
    apply apiFetch_ends.
Qed.

Lemma refresh_pairs_end : completes ids network = true.
Proof.
  unfold completes, pair_ends. apply forallb_forall. intros id _.
  pose proof (run_of_ends (App.getAgentStatus id)) as Hstatus.
  pose proof (run_of_ends (App.getAgentCost id)) as Hcost.
  simpl in Hstatus, Hcost. now rewrite Hstatus, Hcost.
Qed.

Lemma polls_all_end : polls_end ids network = true.
Proof.
  unfold polls_end. apply forallb_forall. intros id _.
  apply (run_of_ends (App.getAgentStatus id)).
Qed.

Lemma send_runs_to_its_end closure : send_ends ids network closure = true.
Proof.
  unfold send_ends, chat_run.
  now rewrite run_of_ends, refresh_pairs_end, orb_true_r.
Qed.

End ArrivingBodies.

(** The healthy backend is such a network. *)
Example healthy_bodies_arrive : bodies_arrive Examples.healthy.
Proof.
  intros request r. unfold Examples.healthy, Examples.answers.
  repeat (destruct (_ : bool)); intros [= <-]; discriminate.
Qed.

(* ================================================================== *)
(** * Properties of what is drawn *)
(* ================================================================== *)

(** X18. A node of the 3D view and the line that ties it to the centre have
    the same colour exactly for the statuses [open] (both red), [half_open]
    (both yellow) and [closed] (both green); for any other status the node
    is green and the line is red. *)
Theorem node_and_connection_agree_on_known_statuses status :
  (Scene.node_color status = Scene.connection_color status <-> known_status status = true) /\
  (known_status status = false ->
   Scene.node_color status = Scene.green /\ Scene.connection_color status = Scene.red) /\
  (status = str "open" ->
   Scene.node_color status = Scene.red /\ Scene.connection_color status = Scene.red) /\
  (status = str "half_open" ->
   Scene.node_color status = Scene.yellow /\ Scene.connection_color status = Scene.yellow) /\
  (status = str "closed" ->
   Scene.node_color status = Scene.green /\ Scene.connection_color status = Scene.green).
Proof.
  split; [ | split; [ | repeat split; subst; reflexivity ] ].
  - destruct status as [ | | b | n | s | l | props ]; simpl; try (split; discriminate).
    destruct (String.eqb_spec s "open") as [ -> | Hopen ]; [ now split | ].
    destruct (String.eqb_spec s "half_open") as [ -> | Hhalf ]; [ now split | ].
    destruct (String.eqb_spec s "closed") as [ -> | Hclosed ]; [ now split | ].
    split; discriminate.
  - destruct status as [ | | b | n | s | l | props ]; simpl; auto.
    destruct (String.eqb s "open"); [ discriminate | ].
    destruct (String.eqb s "half_open"); [ discriminate | ].
    destruct (String.eqb s "closed"); [ discriminate | auto ].
Qed.

Section SceneBehaviour.

Variable ids : list string.
Variable network : Api.request -> Api.transport.

Lemma find_coordinator_blind l :
  exists found,
    Scene.find_coordinator (map blind_node l) = Returns found /\
    (found = None \/ found = Some (blind_node "coordinator")).
Proof.
  induction l as [ | id l (found & Hfound & Hshape) ]; [ exists None; auto | ].
  simpl. destruct (String.eqb_spec id "coordinator") as [ -> | Hne ].
  - eexists. split; [ reflexivity | now right ].
  - exists found. auto.
Qed.

Lemma others_blind l :
  Scene.others (map blind_node l) = Returns (map blind_node (List.filter not_coordinator l)).
Proof.
  induction l as [ | id l IH ]; [ reflexivity | ].
  simpl. rewrite IH. simpl. unfold not_coordinator.
  now destruct (String.eqb id "coordinator").
Qed.

Lemma orbiters_blind l :
  Scene.orbiters (map blind_node l) =
  Returns (map (fun id => (Scene.Node (str id) Scene.green (num zero), Scene.red)) l).
Proof.
  induction l as [ | id l IH ]; [ reflexivity | ].
  simpl. rewrite IH. reflexivity.
Qed.

(** X19. After any poll whose calls end, the 3D scene has a green
    coordinator in the centre and, for each tracked identifier other than the
    coordinator, in order, a green node tied to the centre by a red line, all
    without failures, whatever the backend reports. (After a poll with a call
    that never ends, the scene is drawn from the agents it had.) *)
Theorem polled_scene_is_all_green_with_red_links agents :
  (polls_end ids network = true ->
   Scene.SceneContent (CircuitMesh3D.fetchStates ids network agents) =
   Returns (Scene.Scene
              (Scene.Node (str "Coordinator") Scene.green (num zero))
              (map (fun id => (Scene.Node (str id) Scene.green (num zero), Scene.red))
                   (List.filter not_coordinator ids)))) /\
  (polls_end ids network = false ->
   Scene.SceneContent (CircuitMesh3D.fetchStates ids network agents) =
   Scene.SceneContent agents).
Proof.
  rewrite fetchStates_blind. split; intros ->; [ | reflexivity ].
  unfold Scene.SceneContent.
  destruct (find_coordinator_blind ids) as (found & -> & [-> | ->]);
    simpl; rewrite others_blind; simpl; rewrite orbiters_blind; reflexivity.
Qed.

End SceneBehaviour.

(* ================================================================== *)
(** * The properties with a precondition, at concrete runs *)
(* ================================================================== *)

Lemma refresh_files_entries_by_name_witness :
  filed_by_name
    (App.agents (store_of (App.refreshAgentData AGENT_IDS Examples.healthy
                             Examples.later_render Examples.later_render))).
Proof.
  apply (refresh_files_entries_by_name AGENT_IDS Examples.healthy
           Examples.later_render Examples.later_render).
  intros id agent Hlookup. simpl in Hlookup.
  apply lookup_singleton_Some in Hlookup as [<- <-]. reflexivity.
Defined.

Lemma send_appends_a_question_and_one_answer_witness :
  App.input (store_of (App.handleSend AGENT_IDS Behaviour.chat_down
                         Behaviour.asked_twice Behaviour.asked_twice)) = "" /\
  exists reply,
    is_assistant_entry (App.setMessages reply) = true /\
    App.messages (store_of (App.handleSend AGENT_IDS Behaviour.chat_down
                              Behaviour.asked_twice Behaviour.asked_twice)) =
    App.messages Behaviour.asked_twice ++ [user_entry Behaviour.asked_twice; reply] /\
    App.loading (store_of (App.handleSend AGENT_IDS Behaviour.chat_down
                             Behaviour.asked_twice Behaviour.asked_twice)) =
    negb (send_ends AGENT_IDS Behaviour.chat_down Behaviour.asked_twice).
Proof.
  pose proof (send_appends_a_question_and_one_answer AGENT_IDS Behaviour.chat_down
                Behaviour.asked_twice Behaviour.asked_twice
                ltac:(vm_compute; discriminate)) as (Hinput & Hends & _).
  split; [ exact Hinput | ].
  apply Hends. vm_compute. reflexivity.
Defined.

Lemma send_makes_one_chat_call_for_its_mode_witness :
  List.filter is_chat_issue
    (trace_of (App.handleSend AGENT_IDS Examples.healthy
                 Behaviour.asked_twice Behaviour.asked_twice)) =
  [App.issued (App.sendQuery "hello" "user_agent" true)].
Proof.
  apply (send_makes_one_chat_call_for_its_mode AGENT_IDS Examples.healthy
           Behaviour.asked_twice Behaviour.asked_twice).
  vm_compute. discriminate.
Defined.

Lemma failed_chat_call_is_reported_in_the_timeline_witness :
  App.messages (store_of (App.handleSend AGENT_IDS Behaviour.chat_down
                            Examples.typed_render Examples.typed_render)) =
  [ user_entry Examples.typed_render;
    object [("role", str "assistant");
            ("content", str (reported "Server error. Please try again later."))] ].
Proof.
  apply (failed_chat_call_is_reported_in_the_timeline AGENT_IDS Behaviour.chat_down
           Examples.typed_render Examples.typed_render
           "Server error. Please try again later.").
  - vm_compute. discriminate.
  - vm_compute. reflexivity.
Defined.

Lemma send_counts_as_one_query_witness :
  View.totalQueries
    (App.messages (store_of (App.handleSend AGENT_IDS Examples.healthy
                               Behaviour.asked_twice Behaviour.asked_twice))) =
  Returns 3.
Proof.
  apply (send_counts_as_one_query AGENT_IDS Examples.healthy
           Behaviour.asked_twice Behaviour.asked_twice 2).
  - vm_compute. discriminate.
  - reflexivity.
Defined.

Lemma send_leaves_the_dashboard_refreshed_witness :
  App.agents (store_of (App.handleSend AGENT_IDS Examples.healthy
                          Examples.typed_render Examples.typed_render)) =
  App.agents (store_of (App.refreshAgentData AGENT_IDS Examples.healthy
                          Examples.typed_render Examples.typed_render)) /\
  App.backendOnline (store_of (App.handleSend AGENT_IDS Examples.healthy
                                 Examples.typed_render Examples.typed_render)) =
  App.backendOnline (store_of (App.refreshAgentData AGENT_IDS Examples.healthy
                                 Examples.typed_render Examples.typed_render)).
Proof.
  apply (proj1 (send_leaves_the_dashboard_refreshed AGENT_IDS Examples.healthy
                  Examples.typed_render Examples.typed_render
                  ltac:(vm_compute; discriminate))).
  - vm_compute. reflexivity.
  - vm_compute. reflexivity.
Defined.
